(** * lastmonitor dashboard: API client and view-model derivations

    A shallow embedding of [dashboard/src/api.ts] and of the derivations of
    [dashboard/src/App.tsx] (the memoised values of [App], the data
    preparation of [DailyChart] and [QueryPie], and [entries] of [LiveFeed]),
    followed by the properties the specification states about them.

    Conventions of the embedding:
    - a JavaScript array is a [list];
    - a value that may be [undefined] at run time (the [data] of a query
      that has not resolved, an optional field, the result of [?.]) is an
      [option], [None] being [undefined];
    - a JavaScript string is a [string];
    - an integer-valued JavaScript number is a [Z]. *)

From Stdlib Require Import ZArith String Ascii List Sorting.Sorted.
From stdpp Require Import base decidable option list strings pretty sorting.

#[local] Set Warnings "-clear-no-such-hyp".

Local Open Scope string_scope.
Local Open Scope list_scope.
Local Open Scope Z_scope.

(** ** JavaScript primitives used by the sources *)

Module Js.

(** Truthiness of a possibly-undefined string: [undefined] and the empty
    string are falsy, every other string is truthy. *)
Definition truthy (v : option string) : bool :=
  match v with
  | None => false
  | Some s => negb (String.eqb s "")
  end.

(** [a || b] on possibly-undefined strings. *)
Definition or (a b : option string) : option string :=
  if truthy a then a else b.

(** [a || d] where the right operand is a string literal. *)
Definition or_default (a : option string) (d : string) : string :=
  match a with
  | Some s => if String.eqb s "" then d else s
  | None => d
  end.

(** [n || 0] on a number that may be [NaN] ([None]). *)
Definition num_or_zero (n : option Z) : Z :=
  match n with
  | Some z => z
  | None => 0
  end.

(** Relative index resolution of [Array.prototype.slice]: a negative
    index counts from the end, and the result is clamped to [0..len]. *)
Definition rel_index (len k : Z) : Z :=
  if k <? 0 then Z.max (len + k) 0 else Z.min k len.

(** [arr.slice(start, end)]; [end_ = None] is the one-argument call. *)
Definition slice {A : Type} (start : Z) (end_ : option Z) (arr : list A) : list A :=
  let len := Z.of_nat (length arr) in
  let from := rel_index len start in
  let final := match end_ with
               | None => len
               | Some e => rel_index len e
               end in
  take (Z.to_nat (final - from)) (drop (Z.to_nat from) arr).

(** [arr[0]], [undefined] on the empty array. *)
Definition first {A : Type} (arr : list A) : option A := head arr.

(** Optional chaining [o?.f]: [undefined] when [o] is. *)
Definition chain {A B : Type} (o : option A) (f : A -> option B) : option B :=
  match o with
  | Some a => f a
  | None => None
  end.

(** A [Set<string>] keeps its members in insertion order; [add] of a
    member already present leaves the set unchanged. *)
Definition Set_add (s : list string) (x : string) : list string :=
  if decide (x ∈ s) then s else s ++ [x].

(** [new Set(arr)], also the result of [arr.forEach(x => set.add(x))] on
    a fresh set. *)
Definition Set_of (arr : list string) : list string :=
  fold_left Set_add arr [].

(** [s.includes(sub)]. *)
Fixpoint includes (s sub : string) : bool :=
  String.prefix sub s ||
  match s with
  | EmptyString => false
  | String _ rest => includes rest sub
  end.

(** [arr.sort(cmp)]: a stable sort; [cmp a b <= 0] keeps [a] before [b].
    [insert_sorted] puts [a] in front of the first element it does not
    have to follow, so equal elements keep their original order. *)
Fixpoint insert_sorted {A : Type} (cmp : A -> A -> Z) (a : A) (l : list A) : list A :=
  match l with
  | [] => [a]
  | b :: l' => if cmp a b <=? 0 then a :: b :: l' else b :: insert_sorted cmp a l'
  end.

Definition sort {A : Type} (cmp : A -> A -> Z) (arr : list A) : list A :=
  foldr (insert_sorted cmp) [] arr.

End Js.

(** ** api.ts *)

Module Api.

(** The records of the remote API. The fields the code reads through [||]
    (the timestamps, and [source] of a news item) can be missing from a
    payload although their declared type is [string]; they are options. *)
Record Tweet : Type := mkTweet {
  tweet_id : string;
  query : string;
  user_handle : string;
  user_name : string;
  text : string;
  link : string;
  tweet_created_at : option string;
  fetched_at : option string;
}.

Record News : Type := mkNews {
  news_link : string;
  source : option string;
  news_created_at : option string;
  news_fetched_at : option string;
}.

Record DailyStat : Type := mkDailyStat { day : string; tweets : Z }.
Record QueryStat : Type := mkQueryStat { qs_query : string; total : Z }.

(** Build-time configuration, [import.meta.env]. *)
Record Env : Type := mkEnv {
  VITE_API_BASE_URL : option string;
  VITE_API_TOKEN : option string;
}.

Definition API_BASE_URL (env : Env) : string :=
  Js.or_default (VITE_API_BASE_URL env) "".
Definition API_TOKEN (env : Env) : string :=
  Js.or_default (VITE_API_TOKEN env) "".

(** A value of the [search] record: [string | number | undefined], and
    [null], which the run-time test of [request] also covers. *)
Inductive param : Type :=
| PUndefined
| PNull
| PStr (s : string)
| PNum (n : Z).

(** [v !== undefined && v !== null] *)
Definition present (v : param) : bool :=
  match v with
  | PUndefined | PNull => false
  | PStr _ | PNum _ => true
  end.

(** [String(v)] *)
Definition String_of (v : param) : string :=
  match v with
  | PUndefined => "undefined"
  | PNull => "null"
  | PStr s => s
  | PNum n => pretty n
  end.

(** [FetchOptions]; [search] is given by its [Object.entries]. *)
Record FetchOptions : Type := mkFetchOptions {
  path : string;
  search : option (list (string * param));
}.

(** A parsed URL. [request] is private to the module and its four callers
    pass literal absolute paths without a query component, so the parsed
    URL starts with an empty query list whatever the base is. *)
Record URL : Type := mkURL {
  url_base : string;
  url_path : string;
  searchParams : list (string * string);
}.

(** [URLSearchParams.set]: the first pair named [k] takes the value and
    the later ones are removed; without such a pair one is appended. *)
Fixpoint searchParams_set (k v : string) (l : list (string * string))
  : list (string * string) :=
  match l with
  | [] => [(k, v)]
  | (k', v') :: l' =>
      if String.eqb k' k
      then (k, v) :: List.filter (fun p => negb (String.eqb (fst p) k)) l'
      else (k', v') :: searchParams_set k v l'
  end.

Definition url_set (u : URL) (k v : string) : URL :=
  {| url_base := url_base u; url_path := url_path u;
     searchParams := searchParams_set k v (searchParams u) |}.

(** The body of the [forEach] callback of [request]. *)
Definition add_param (u : URL) (kv : string * param) : URL :=
  if present (snd kv) then url_set u (fst kv) (String_of (snd kv)) else u.

(** [Error] objects, by constructor and message. *)
Inductive js_error : Type :=
| Error (message : string)
| TypeError (message : string)
| SyntaxError (message : string).

Record Request : Type := mkRequest {
  req_url : URL;
  req_headers : list (string * string);
}.

Record Response : Type := mkResponse {
  status : Z;
  body : string;
}.

(** [res.ok]: the status is in the range 200-299. *)
Definition ok (res : Response) : bool :=
  (200 <=? status res) && (status res <=? 299).

(** A decoded JSON document. *)
#[local] Unset Elimination Schemes.
Inductive json : Type :=
| JNull
| JBool (b : bool)
| JNumber (n : Z)
| JString (s : string)
| JArray (items : list json)
| JObject (fields : list (string * json)).
#[local] Set Elimination Schemes.

(** What the browser provides to [request]. *)
Class Network : Type := {
  (** whether [new URL(path, base)] parses *)
  URL_canParse : string -> string -> bool;
  (** the answer to [fetch], a rejection or a response *)
  fetch : Request -> js_error + Response;
  (** [JSON.parse], [None] on malformed text *)
  JSON_parse : string -> option json;
}.

(** Asynchronous computations: the network calls issued so far, and a
    rejection or a value. *)
Definition Async (A : Type) : Type := (list Request * (js_error + A))%type.

Definition resolve {A : Type} (a : A) : Async A := ([], inr a).
Definition throw {A : Type} (e : js_error) : Async A := ([], inl e).
Definition await {A B : Type} (m : Async A) (k : A -> Async B) : Async B :=
  match m with
  | (calls, inl e) => (calls, inl e)
  | (calls, inr a) => let '(calls', r) := k a in (calls ++ calls', r)
  end.

Notation "'let!' x ':=' m 'in' k" := (await m (fun x => k))
  (at level 10, x name, m at level 100, k at level 200).

Section request.
Context `{Network}.
Variable env : Env.

Definition new_URL (p base : string) : Async URL :=
  if URL_canParse p base
  then resolve {| url_base := base; url_path := p; searchParams := [] |}
  else throw (TypeError "Invalid URL").

Definition do_fetch (rq : Request) : Async Response := ([rq], fetch rq).

Definition res_text (res : Response) : Async string := resolve (body res).

Definition res_json (res : Response) : Async json :=
  match JSON_parse (body res) with
  | Some v => resolve v
  | None => throw (SyntaxError "Unexpected token")
  end.

(** The [if (search) { ... forEach ... }] block of [request]. *)
Definition add_search (url0 : URL) (search : option (list (string * param))) : URL :=
  match search with
  | Some entries => fold_left add_param entries url0
  | None => url0
  end.

(** The [headers] of the [fetch] call. *)
Definition auth_headers : list (string * string) :=
  [("Authorization", "Bearer " +:+ API_TOKEN env)].

Definition request (opts : FetchOptions) : Async json :=
  if String.eqb (API_BASE_URL env) ""
  then throw (Error "API base URL is not set (VITE_API_BASE_URL).")
  else
    let! url0 := new_URL (path opts) (API_BASE_URL env) in
    let url := add_search url0 (search opts) in
    let! res := do_fetch {| req_url := url; req_headers := auth_headers |} in
    if negb (ok res)
    then
      let! text := res_text res in
      throw (Error ("API " +:+ pretty (status res) +:+ ": " +:+ text))
    else res_json res.

(** The network calls [request] makes, and its first one. *)
Definition request_calls (opts : FetchOptions) : list Request :=
  fst (request opts).
Definition request_sent (opts : FetchOptions) : option Request :=
  head (request_calls opts).
Definition request_outcome (opts : FetchOptions) : js_error + json :=
  snd (request opts).

Definition fetchTweets (params : option (list (string * param))) : Async json :=
  request {| path := "/tweets"; search := params |}.

Definition fetchNews : Async json :=
  request {| path := "/news"; search := None |}.

Definition fetchDailyStats : Async json :=
  request {| path := "/stats/daily"; search := None |}.

End request.

End Api.

(** ** App.tsx: the derivations of [App], [DailyChart] and [QueryPie] *)

Module App.
Import Api.

(** [DailyChart]: the array handed to the bar chart. *)
Definition DailyChart_mapped (data : list DailyStat) : list DailyStat :=
  Js.slice (-14) None
    (reverse (map (fun d => {| day := day d; tweets := tweets d |}) data)).

(** [QueryPie]: the array handed to the pie chart. *)
Definition QueryPie_trimmed (data : list QueryStat) : list QueryStat :=
  Js.slice 0 (Some 8) data.

Definition recentTweets (data : option (list Tweet)) : list Tweet :=
  match data with
  | None => []
  | Some d => Js.slice 0 (Some 20) d
  end.

Definition recentNews (data : option (list News)) : list News :=
  match data with
  | None => []
  | Some d => Js.slice 0 (Some 15) d
  end.

Definition queries (data : option (list Tweet)) : list string :=
  match data with
  | None => []
  | Some d => Js.Set_of (map query d)
  end.

Record Stats : Type := mkStats {
  totalTweets : Z;
  uniqueQueries : Z;
  lastFetched : option string;
  lastNews : option string;
}.

Definition stats (tweetsData : option (list Tweet)) (newsData : option (list News))
  : Stats :=
  {| (* tweetsQuery.data?.length || 0 *)
     totalTweets := match tweetsData with
                    | Some d => Z.of_nat (length d)
                    | None => 0
                    end;
     (* new Set((tweetsQuery.data || []).map((t) => t.query)).size *)
     uniqueQueries :=
       Z.of_nat (length (Js.Set_of (map query (default [] tweetsData))));
     lastFetched :=
       Js.or (Js.chain (Js.chain tweetsData Js.first) fetched_at)
             (Js.chain (Js.chain tweetsData Js.first) tweet_created_at);
     lastNews :=
       Js.or (Js.chain (Js.chain newsData Js.first) news_fetched_at)
             (Js.chain (Js.chain newsData Js.first) news_created_at) |}.

Record TimelinePoint : Type := mkTimelinePoint {
  ts : option string;
  tp_query : string;
}.

(** The callback of the [map] in [timeline]. *)
Definition timeline_point (t : Tweet) : TimelinePoint :=
  {| ts := Js.or (tweet_created_at t) (fetched_at t); tp_query := query t |}.

Definition timeline (data : option (list Tweet)) : list TimelinePoint :=
  match data with
  | None => []
  | Some d => Js.slice 0 (Some 50) (map timeline_point d)
  end.

(** *** The queries of [App] *)

(** [s || undefined] on a string of the UI state. *)
Definition or_undefined (s : string) : param :=
  if String.eqb s "" then PUndefined else PStr s.

(** The argument of [fetchTweets] in the [queryFn] of [tweetsQuery], by its
    [Object.entries]. *)
Definition tweetsQuery_params (queryFilter search : string) : list (string * param) :=
  [("q", or_undefined queryFilter); ("search", or_undefined search)].

Definition tweetsQuery_fn `{Network} (env : Env) (queryFilter search : string)
  : Async json :=
  fetchTweets env (Some (tweetsQuery_params queryFilter search)).


(** *** What the components render from the derivations *)

(** The timestamp [TweetList] prints in the row of a tweet. *)
Definition TweetList_timestamp (t : Tweet) : option string :=
  Js.or (tweet_created_at t) (fetched_at t).

(** The timestamp [NewsList] prints in the row of a news item. *)
Definition NewsList_timestamp (n : News) : option string :=
  Js.or (news_created_at n) (news_fetched_at n).

(** [COLORS] *)
Definition COLORS : list string :=
  ["#2563eb"; "#ea580c"; "#16a34a"; "#9333ea"; "#0891b2"; "#f59e0b"].

(** The [fill] of the cells of [QueryPie], one per plotted entry. *)
Definition QueryPie_fills (data : list QueryStat) : list (option string) :=
  imap (fun idx _ => COLORS !! (idx mod length COLORS)%nat) (QueryPie_trimmed data).

Record AreaPoint : Type := mkAreaPoint {
  name : Z;
  ap_query : string;
  value : Z;
}.

(** The [data] of the area chart: [timeline.map((t, i) => ...)]. *)
Definition timeline_chart (tl : list TimelinePoint) : list AreaPoint :=
  imap (fun i t => {| name := Z.of_nat i + 1; ap_query := tp_query t; value := 1 |}) tl.

(** [timeline.length === 0]: the section prints "Veri yok" instead of the
    chart. *)
Definition timeline_is_empty (tl : list TimelinePoint) : bool :=
  Z.of_nat (length tl) =? 0.

(** The [value] of the cards "Son Tweet" and "Son Haber". *)
Definition lastFetched_card (st : Stats) : string :=
  Js.or_default (lastFetched st) "-".
Definition lastNews_card (st : Stats) : string :=
  Js.or_default (lastNews st) "-".

End App.

(** ** App.tsx: [entries] of [LiveFeed] *)

Module LiveFeed.

Inductive item_kind : Type := tweet | news.

Record Item : Type := mkItem {
  kind : item_kind;
  text : string;
  link : string;
  ts : option string;
  meta : string;
}.

Inductive filter_type : Type := site | place | person | all.

#[export] Instance filter_type_eq_dec : EqDecision filter_type.
Proof. solve_decision. Defined.

Record Filter : Type := mkFilter {
  type : filter_type;
  value : option string;
}.

(** The two library functions [entries] relies on. *)
Class Runtime : Type := {
  (** [String.prototype.toLowerCase] *)
  toLowerCase : string -> string;
  (** [new Date(s).getTime()], [None] when the date is invalid ([NaN]) *)
  Date_getTime : string -> option Z;
  (** lowering the empty string gives the empty string *)
  toLowerCase_empty : toLowerCase "" = "";
}.

Section entries.
Context `{Runtime}.

Definition tweet_item (t : Api.Tweet) : Item :=
  {| kind := tweet;
     text := Api.text t;
     link := Api.link t;
     ts := Js.or (Api.tweet_created_at t) (Api.fetched_at t);
     meta := Api.user_name t +:+ " • " +:+ Api.query t |}.

Definition news_item (n : Api.News) : Item :=
  {| kind := news;
     text := Api.news_link n;
     link := Api.news_link n;
     ts := Js.or (Api.news_created_at n) (Api.news_fetched_at n);
     meta := Js.or_default (Api.source n) "Haber" |}.

(** The array [items] after the two [forEach] loops. *)
Definition items (tweetsData : option (list Api.Tweet))
    (newsData : option (list Api.News)) : list Item :=
  map tweet_item (default [] tweetsData) ++ map news_item (default [] newsData).

(** [(v || "").toLowerCase()] *)
Definition normalize (v : option string) : string :=
  toLowerCase (Js.or_default v "").

(** The callback of [items.filter]. *)
Definition keep (filter : Filter) (it : Item) : bool :=
  if decide (type filter = all) then true
  else
    let val := normalize (value filter) in
    if String.eqb val "" then true
    else if decide (type filter = site)
    then Js.includes (normalize (Some (meta it))) val
         || Js.includes (normalize (Some (text it))) val
    else if decide (type filter = place ∨ type filter = person)
    then Js.includes (normalize (Some (text it))) val
         || Js.includes (normalize (Some (meta it))) val
    else true.

(** [new Date(ts).getTime()]; [new Date(undefined)] is an invalid date. *)
Definition getTime (ts : option string) : option Z :=
  match ts with
  | Some s => Date_getTime s
  | None => None
  end.

(** [new Date(ts).getTime() || 0] *)
Definition time_of (ts : option string) : Z :=
  Js.num_or_zero (getTime ts).

(** The comparator of [filtered.sort]. The epoch times are integers
    below 2^53 in size, on which the sign of the floating-point
    difference is the sign of the exact one. *)
Definition by_time_desc (a b : Item) : Z :=
  time_of (ts b) - time_of (ts a).

Definition entries (tweetsData : option (list Api.Tweet))
    (newsData : option (list Api.News)) (filter : Filter) : list Item :=
  let filtered := List.filter (keep filter) (items tweetsData newsData) in
  Js.slice 0 (Some 10) (Js.sort by_time_desc filtered).
End entries.

(** The [queryFn] of the two queries of [LiveFeed]. *)
Definition tweets_fn `{Api.Network} (env : Api.Env) : Api.Async Api.json :=
  Api.fetchTweets env None.
Definition news_fn `{Api.Network} (env : Api.Env) : Api.Async Api.json :=
  Api.fetchNews env.

End LiveFeed.

(** ** The derivations as the specification words them *)

Module Spec.
Import Api.

(** The last [n] entries of a collection. *)
Definition last_n {A : Type} (n : nat) (l : list A) : list A :=
  drop (length l - n)%nat l.

(** Daily chart series: reverse the collection, then keep the last 14. *)
Definition daily_series (data : list DailyStat) : list DailyStat :=
  last_n 14 (reverse data).

(** Timeline series: take the first 50 tweets, then project each one. *)
Definition timeline_series (d : list Tweet) : list App.TimelinePoint :=
  map App.timeline_point (take 50 d).

(** Each value once, in the order of its first occurrence. *)
Fixpoint first_seen (l : list string) : list string :=
  match l with
  | [] => []
  | x :: l' => x :: filter (fun y => y ≠ x) (first_seen l')
  end.

(** [sub] occurs in [s] as a contiguous substring. *)
Definition contains (s sub : string) : Prop :=
  ∃ pre post, s = pre +:+ sub +:+ post.

(** [sub] occurs in [s] when letter case is ignored. *)
Definition contains_ci `{LiveFeed.Runtime} (s sub : string) : Prop :=
  contains (LiveFeed.toLowerCase s) (LiveFeed.toLowerCase sub).

(** The live-feed filter rule: every item passes when the filter kind is
    [all] or the filter value is empty; otherwise the items whose
    meta-label or text contains the value pass. *)
Definition passes `{LiveFeed.Runtime} (f : LiveFeed.Filter) (it : LiveFeed.Item) : Prop :=
  let v := Js.or_default (LiveFeed.value f) "" in
  LiveFeed.type f = LiveFeed.all
  ∨ v = ""
  ∨ contains_ci (LiveFeed.meta it) v
  ∨ contains_ci (LiveFeed.text it) v.

(** The parsed timestamp of an item, epoch zero when it does not parse. *)
Definition parsed_time `{LiveFeed.Runtime} (it : LiveFeed.Item) : Z :=
  match LiveFeed.ts it with
  | Some s => match LiveFeed.Date_getTime s with
              | Some ms => ms
              | None => 0
              end
  | None => 0
  end.

(** Newest first. *)
Definition newest_first `{LiveFeed.Runtime} (a b : LiveFeed.Item) : Prop :=
  parsed_time b ≤ parsed_time a.

(** Data that is absent or has no element. *)
Definition absent_or_empty {A : Type} (data : option (list A)) : Prop :=
  data = None ∨ data = Some [].

(** The query a parameter map stands for: its present values, converted
    to strings, in the order of the entries. *)
Definition query_of (entries : list (string * param)) : list (string * string) :=
  omap (fun kv => if present (snd kv)
                  then Some (fst kv, String_of (snd kv))
                  else None) entries.

(** Exactly one of two possibly-undefined strings is truthy. *)
Definition one_truthy (a b : option string) : Prop :=
  Js.truthy a = negb (Js.truthy b).

End Spec.

(** ** Sample data *)

Module Sample.
Import Api.

Definition day_labels (n : nat) : list string :=
  map (fun i => "d" +:+ pretty (S i)) (seq 0 n).

Definition days20 : list DailyStat :=
  map (fun i => {| day := "d" +:+ pretty (S i); tweets := Z.of_nat i |}) (seq 0 20).

Definition tw (q : string) (created fetched : option string) : Tweet :=
  {| tweet_id := "1"; query := q; user_handle := "h"; user_name := "Name";
     text := "hello"; link := "https://x.test/1";
     tweet_created_at := created; fetched_at := fetched |}.

Definition nw (created fetched : option string) : News :=
  {| news_link := "https://example.com/a"; source := Some "example.com";
     news_created_at := created; news_fetched_at := fetched |}.

(** A runtime that lowers the letters A-Z and knows the dates of the
    samples, as epoch milliseconds. *)
Definition lower_ascii (c : ascii) : ascii :=
  let n := nat_of_ascii c in
  if ((65 <=? n) && (n <=? 90))%nat then ascii_of_nat (n + 32) else c.

Fixpoint lower (s : string) : string :=
  match s with
  | EmptyString => EmptyString
  | String c rest => String (lower_ascii c) (lower rest)
  end.

Definition date_table (s : string) : option Z :=
  if String.eqb s "2024-05-01T10:00:00Z" then Some 1714557600000
  else if String.eqb s "2024-05-02T08:00:00Z" then Some 1714636800000
  else if String.eqb s "2024-05-02T08:05:00Z" then Some 1714637100000
  else if String.eqb s "2024-04-30T09:00:00Z" then Some 1714467600000
  else None.

Definition runtime : LiveFeed.Runtime :=
  {| LiveFeed.toLowerCase := lower;
     LiveFeed.Date_getTime := date_table;
     LiveFeed.toLowerCase_empty := eq_refl |}.

(** Three tweets and two news items for the live feed, and the filter
    on the site example.com. *)
Definition feed_tweets : list Tweet :=
  [ {| tweet_id := "1"; query := "q1"; user_handle := "ann"; user_name := "Ann";
       text := "Read it on EXAMPLE.com today"; link := "https://x.test/1";
       tweet_created_at := Some "2024-05-01T10:00:00Z";
       fetched_at := Some "2024-05-02T08:00:00Z" |};
    {| tweet_id := "2"; query := "q2"; user_handle := "bob"; user_name := "Bob";
       text := "nothing to see"; link := "https://x.test/2";
       tweet_created_at := Some "2024-05-02T08:00:00Z";
       fetched_at := Some "2024-05-02T08:00:00Z" |};
    {| tweet_id := "3"; query := "q1"; user_handle := "cy"; user_name := "Cy";
       text := "via example.com"; link := "https://x.test/3";
       tweet_created_at := None;
       fetched_at := Some "yesterday-ish" |} ].

Definition feed_news : list News :=
  [ {| news_link := "https://example.com/a"; source := Some "example.com";
       news_created_at := Some "2024-05-02T08:05:00Z";
       news_fetched_at := Some "2024-05-02T08:05:00Z" |};
    {| news_link := "https://other.test/b"; source := Some "other.test";
       news_created_at := Some "2024-04-30T09:00:00Z";
       news_fetched_at := None |} ].

Definition site_filter : LiveFeed.Filter :=
  {| LiveFeed.type := LiveFeed.site; LiveFeed.value := Some "example.com" |}.

Definition feed_expected : list LiveFeed.Item :=
  [ {| LiveFeed.kind := LiveFeed.news; LiveFeed.text := "https://example.com/a";
       LiveFeed.link := "https://example.com/a";
       LiveFeed.ts := Some "2024-05-02T08:05:00Z"; LiveFeed.meta := "example.com" |};
    {| LiveFeed.kind := LiveFeed.tweet; LiveFeed.text := "Read it on EXAMPLE.com today";
       LiveFeed.link := "https://x.test/1";
       LiveFeed.ts := Some "2024-05-01T10:00:00Z"; LiveFeed.meta := "Ann • q1" |};
    {| LiveFeed.kind := LiveFeed.tweet; LiveFeed.text := "via example.com";
       LiveFeed.link := "https://x.test/3";
       LiveFeed.ts := Some "yesterday-ish"; LiveFeed.meta := "Cy • q1" |} ].

(** A network that answers 500 on /news and 200 with an empty array
    elsewhere, and a parser that knows the empty array only. *)
Definition network : Network :=
  {| URL_canParse := fun _ base => String.prefix "http" base;
     fetch := fun rq =>
       inr (if String.eqb (url_path (req_url rq)) "/news"
            then {| status := 500; body := "upstream down" |}
            else {| status := 200; body := "[]" |});
     JSON_parse := fun s => if String.eqb s "[]" then Some (JArray []) else None |}.

Definition env : Env :=
  {| VITE_API_BASE_URL := Some "http://api.test"; VITE_API_TOKEN := Some "secret" |}.

Definition env_unset : Env :=
  {| VITE_API_BASE_URL := None; VITE_API_TOKEN := Some "secret" |}.

(** The options of [fetchTweets({ q: "a", search: undefined })]. *)
Definition tweets_opts : FetchOptions :=
  {| path := "/tweets"; search := Some [("q", PStr "a"); ("search", PUndefined)] |}.

Definition news_opts : FetchOptions := {| path := "/news"; search := None |}.

(** What [request] sends for [news_opts] and [tweets_opts], and what the
    sample network answers. *)
Definition news_request : Request :=
  {| req_url := {| url_base := "http://api.test"; url_path := "/news";
                   searchParams := [] |};
     req_headers := [("Authorization", "Bearer secret")] |}.
Definition news_response : Response :=
  {| status := 500; body := "upstream down" |}.
Definition tweets_request : Request :=
  {| req_url := {| url_base := "http://api.test"; url_path := "/tweets";
                   searchParams := [("q", "a")] |};
     req_headers := [("Authorization", "Bearer secret")] |}.
Definition tweets_response : Response :=
  {| status := 200; body := "[]" |}.

(** Tweets whose queries are a, b, a, c. *)
Definition tweets_abac : list Tweet :=
  [tw "a" None None; tw "b" None None; tw "a" None None; tw "c" None None].

(** A tweet and a news item carrying both timestamps. *)
Definition tweet_both : Tweet :=
  tw "q" (Some "2024-05-01T10:00:00Z") (Some "2024-05-02T08:00:00Z").
Definition news_both : News :=
  nw (Some "2024-04-30T09:00:00Z") (Some "2024-05-02T08:05:00Z").

(** A tweet and a news item that were fetched without a fetch timestamp. *)
Definition tweet_created_only : Tweet :=
  tw "q" (Some "2024-05-01T10:00:00Z") None.
Definition news_created_only : News :=
  nw (Some "2024-04-30T09:00:00Z") None.

(** An environment without a token, and one whose base URL does not parse. *)
Definition env_no_token : Env :=
  {| VITE_API_BASE_URL := Some "http://api.test"; VITE_API_TOKEN := None |}.
Definition env_bad_base : Env :=
  {| VITE_API_BASE_URL := Some "api.test"; VITE_API_TOKEN := Some "secret" |}.

(** A network whose [fetch] always rejects. *)
Definition network_down : Network :=
  {| URL_canParse := fun _ base => String.prefix "http" base;
     fetch := fun _ => inl (TypeError "Failed to fetch");
     JSON_parse := fun _ => None |}.

(** A network that answers 200 with a body that is not JSON. *)
Definition network_html : Network :=
  {| URL_canParse := fun _ base => String.prefix "http" base;
     fetch := fun _ => inr {| status := 200; body := "<html>" |};
     JSON_parse := fun s => if String.eqb s "[]" then Some (JArray []) else None |}.

Definition daily_request : Request :=
  {| req_url := {| url_base := "http://api.test"; url_path := "/stats/daily";
                   searchParams := [] |};
     req_headers := [("Authorization", "Bearer secret")] |}.


Definition tweets_request_with (query : list (string * string)) : Request :=
  {| req_url := {| url_base := "http://api.test"; url_path := "/tweets";
                   searchParams := query |};
     req_headers := [("Authorization", "Bearer secret")] |}.

(** Thirty tweets, numbered from 0, with alternating queries. *)
Definition tweets30 : list Tweet :=
  map (fun i => {| tweet_id := pretty i; query := if Nat.even i then "a" else "b";
                   user_handle := "h"; user_name := "Name"; text := "hello";
                   link := "https://x.test/" +:+ pretty i;
                   tweet_created_at := Some "2024-05-01T10:00:00Z";
                   fetched_at := None |}) (seq 0 30).

(** Ten top-query rows. *)
Definition top10 : list QueryStat :=
  map (fun i => {| qs_query := pretty i; total := 100 - Z.of_nat i |}) (seq 0 10).

(** The live feed of the thirty tweets and the two news items, unfiltered:
    the newer news item is the newest of all, the older one the oldest. *)
Definition all_filter : LiveFeed.Filter :=
  {| LiveFeed.type := LiveFeed.all; LiveFeed.value := None |}.
Definition newest_item : LiveFeed.Item :=
  {| LiveFeed.kind := LiveFeed.news; LiveFeed.text := "https://example.com/a";
     LiveFeed.link := "https://example.com/a";
     LiveFeed.ts := Some "2024-05-02T08:05:00Z"; LiveFeed.meta := "example.com" |}.
Definition oldest_item : LiveFeed.Item :=
  {| LiveFeed.kind := LiveFeed.news; LiveFeed.text := "https://other.test/b";
     LiveFeed.link := "https://other.test/b";
     LiveFeed.ts := Some "2024-04-30T09:00:00Z"; LiveFeed.meta := "other.test" |}.

End Sample.

(** * Properties *)

(** ** [Array.prototype.slice] *)

Section slice_facts.
Context {A : Type}.
Implicit Types l : list A.

Lemma slice_first_n (n : nat) l :
  Js.slice 0 (Some (Z.of_nat n)) l = take n l.
Proof.
  unfold Js.slice, Js.rel_index.
  destruct (Z.ltb_spec (Z.of_nat n) 0); [lia|].
  destruct (Z.ltb_spec 0 0); [lia|].
  replace (Z.to_nat (Z.min 0 (Z.of_nat (length l)))) with 0%nat by lia.
  rewrite drop_0.
  destruct (decide (n ≤ length l)%nat) as [Hle|Hgt].
  - replace (Z.to_nat _) with n by lia. done.
  - replace (Z.to_nat _) with (length l) by lia.
    rewrite !take_ge by lia. done.
Qed.

Lemma slice_last_n (n : nat) l :
  (0 < n)%nat → Js.slice (- Z.of_nat n) None l = Spec.last_n n l.
Proof.
  intros Hn. unfold Js.slice, Js.rel_index, Spec.last_n.
  destruct (Z.ltb_spec (- Z.of_nat n) 0); [|lia].
  replace (Z.to_nat (Z.max (Z.of_nat (length l) + - Z.of_nat n) 0))
    with (length l - n)%nat by lia.
  apply take_ge. rewrite length_drop. lia.
Qed.

Lemma last_n_reverse (n : nat) l :
  Spec.last_n n (reverse l) = reverse (take n l).
Proof.
  unfold Spec.last_n. rewrite length_reverse.
  assert (reverse l = reverse (drop n l) ++ reverse (take n l)) as ->.
  { by rewrite <- reverse_app, take_drop. }
  apply drop_app_length'. rewrite length_reverse, length_drop. done.
Qed.
End slice_facts.

(** ** Chart series *)

Lemma DailyChart_copy (data : list Api.DailyStat) :
  map (fun d => {| Api.day := Api.day d; Api.tweets := Api.tweets d |}) data = data.
Proof.
  induction data as [|[d n] data IH]; simpl; [done|]. by rewrite IH.
Qed.

Lemma map_reverse_take {A B : Type} (f : A → B) (n : nat) (l : list A) :
  map f (reverse (take n l)) = reverse (take n (map f l)).
Proof.
  change (f <$> reverse (take n l) = reverse (take n (f <$> l))).
  by rewrite fmap_reverse, fmap_take.
Qed.

(** C2. The array [DailyChart] plots is the collection reversed and then
    restricted to its last 14 entries. When the day labels of the input are
    d1, ..., d20 in this order, the labels of the chart are d14, d13, ..., d1. *)
Theorem DailyChart_reverse_then_last_14 (data : list Api.DailyStat) :
  App.DailyChart_mapped data = Spec.daily_series data
  ∧ (map Api.day data =
       ["d1"; "d2"; "d3"; "d4"; "d5"; "d6"; "d7"; "d8"; "d9"; "d10";
        "d11"; "d12"; "d13"; "d14"; "d15"; "d16"; "d17"; "d18"; "d19"; "d20"]
     → map Api.day (App.DailyChart_mapped data) =
       ["d14"; "d13"; "d12"; "d11"; "d10"; "d9"; "d8";
        "d7"; "d6"; "d5"; "d4"; "d3"; "d2"; "d1"]).
Proof.
  assert (App.DailyChart_mapped data = Spec.daily_series data) as Heq.
  { unfold App.DailyChart_mapped, Spec.daily_series.
    rewrite DailyChart_copy. exact (slice_last_n 14 (reverse data) ltac:(lia)). }
  split; [exact Heq|].
  intros Hdays. rewrite Heq. unfold Spec.daily_series.
  rewrite last_n_reverse, map_reverse_take, Hdays. reflexivity.
Qed.

Lemma DailyChart_reverse_then_last_14_witness :
  map Api.day Sample.days20 =
    ["d1"; "d2"; "d3"; "d4"; "d5"; "d6"; "d7"; "d8"; "d9"; "d10";
     "d11"; "d12"; "d13"; "d14"; "d15"; "d16"; "d17"; "d18"; "d19"; "d20"]
  ∧ map Api.day (App.DailyChart_mapped Sample.days20) =
    ["d14"; "d13"; "d12"; "d11"; "d10"; "d9"; "d8";
     "d7"; "d6"; "d5"; "d4"; "d3"; "d2"; "d1"].
Proof.
  split; [reflexivity|].
  apply (proj2 (DailyChart_reverse_then_last_14 Sample.days20)). reflexivity.
Defined.

(** C9. [QueryPie] plots the first 8 entries of the response, fewer when
    the response is shorter, unchanged and in their original order; of a
    response of 12 entries these are the entries 1 to 8. *)
Theorem QueryPie_first_8 (data : list Api.QueryStat) :
  App.QueryPie_trimmed data = take 8 data
  ∧ length (App.QueryPie_trimmed data) = Nat.min 8 (length data)
  ∧ (∀ i : nat, (i < 8)%nat → App.QueryPie_trimmed data !! i = data !! i)
  ∧ (∀ e1 e2 e3 e4 e5 e6 e7 e8 e9 e10 e11 e12 : Api.QueryStat,
       App.QueryPie_trimmed [e1; e2; e3; e4; e5; e6; e7; e8; e9; e10; e11; e12]
       = [e1; e2; e3; e4; e5; e6; e7; e8]).
Proof.
  assert (∀ d, App.QueryPie_trimmed d = take 8 d) as Heq.
  { intros d. exact (slice_first_n 8 d). }
  split; [apply Heq|]. split; [rewrite Heq; apply length_take|].
  split.
  - intros i Hi. rewrite Heq. by apply lookup_take_lt.
  - intros. rewrite Heq. reflexivity.
Qed.

Lemma QueryPie_first_8_witness :
  (3 < 8)%nat
  ∧ App.QueryPie_trimmed
      (map (fun i => {| Api.qs_query := pretty i; Api.total := 100 - i |})
           [0; 1; 2; 3; 4; 5; 6; 7; 8; 9; 10; 11]) !! 3%nat
    = Some {| Api.qs_query := "3"; Api.total := 97 |}.
Proof.
  split; [lia|].
  rewrite (proj1 (proj2 (proj2 (QueryPie_first_8 _))) 3%nat); [reflexivity|lia].
Defined.

(** C8. The timeline is the first 50 tweets, each projected to its
    (timestamp, query) pair with the creation timestamp falling back to the
    fetch timestamp: projecting first and then keeping 50, as the code does,
    gives the same series as keeping 50 first and then projecting. *)
Theorem timeline_take_then_project (d : list Api.Tweet) :
  App.timeline (Some d) = Spec.timeline_series d
  ∧ Spec.timeline_series d =
      map (fun t => {| App.ts := Js.or (Api.tweet_created_at t) (Api.fetched_at t);
                       App.tp_query := Api.query t |})
          (Js.slice 0 (Some 50) d).
Proof.
  unfold App.timeline, Spec.timeline_series. split.
  - etransitivity; [exact (slice_first_n 50 (map App.timeline_point d))|].
    change (take 50 (App.timeline_point <$> d) = App.timeline_point <$> take 50 d).
    by rewrite fmap_take.
  - f_equal. symmetry. exact (slice_first_n 50 d).
Qed.

(** ** Distinct query tags *)

Section first_seen_facts.
Implicit Types l acc : list string.

Lemma first_seen_elem_of l q : q ∈ Spec.first_seen l ↔ q ∈ l.
Proof.
  induction l as [|x l IH]; simpl; [done|].
  rewrite !elem_of_cons, list_elem_of_filter, IH.
  destruct (decide (q = x)); naive_solver.
Qed.

Lemma first_seen_NoDup l : NoDup (Spec.first_seen l).
Proof.
  induction l as [|x l IH]; simpl; [constructor|].
  constructor.
  - rewrite list_elem_of_filter. naive_solver.
  - by apply NoDup_filter.
Qed.

Lemma Set_add_fold l acc :
  fold_left Js.Set_add l acc
  = acc ++ filter (fun y => y ∉ acc) (Spec.first_seen l).
Proof.
  revert acc. induction l as [|x l IH]; intros acc; simpl.
  - by rewrite app_nil_r.
  - rewrite IH. unfold Js.Set_add. destruct (decide (x ∈ acc)) as [Hin|Hout].
    + rewrite filter_cons_False by naive_solver.
      rewrite list_filter_filter. f_equal.
      apply list_filter_iff. intros y. split; [|naive_solver].
      intros Hy. split; [done|]. intros ->. done.
    + rewrite filter_cons_True by done.
      rewrite <- app_assoc. simpl. do 2 f_equal.
      rewrite list_filter_filter. apply list_filter_iff. intros y.
      rewrite not_elem_of_app, list_elem_of_singleton. naive_solver.
Qed.

Lemma Set_of_first_seen l : Js.Set_of l = Spec.first_seen l.
Proof.
  unfold Js.Set_of. rewrite Set_add_fold. simpl.
  induction (Spec.first_seen l) as [|y k IH]; [done|].
  rewrite filter_cons_True by apply not_elem_of_nil. by rewrite IH.
Qed.
End first_seen_facts.

(** C7. The distinct-query derivation lists every query tag of the fetched
    tweets exactly once, in the order in which the tags are first seen;
    tweets with the queries a, b, a, c give a, b, c. *)
Theorem queries_distinct_first_seen (d : list Api.Tweet) :
  App.queries (Some d) = Spec.first_seen (map Api.query d)
  ∧ NoDup (App.queries (Some d))
  ∧ (∀ q, q ∈ App.queries (Some d) ↔ q ∈ map Api.query d)
  ∧ (map Api.query d = ["a"; "b"; "a"; "c"] → App.queries (Some d) = ["a"; "b"; "c"]).
Proof.
  unfold App.queries. rewrite Set_of_first_seen.
  split; [done|]. split; [apply first_seen_NoDup|].
  split; [intros q; apply first_seen_elem_of|].
  intros ->. reflexivity.
Qed.

Lemma queries_distinct_first_seen_witness :
  map Api.query Sample.tweets_abac = ["a"; "b"; "a"; "c"]
  ∧ App.queries (Some Sample.tweets_abac) = ["a"; "b"; "c"].
Proof.
  split; [reflexivity|].
  apply (proj2 (proj2 (proj2 (queries_distinct_first_seen Sample.tweets_abac)))).
  reflexivity.
Defined.

(** ** Summary statistics *)

(** C10. On tweet and news data that are absent or empty the summary
    statistics are a tweet count of 0, a distinct-query count of 0 and
    undefined most-recent timestamps. *)
Theorem stats_absent_or_empty
    (tweetsData : option (list Api.Tweet)) (newsData : option (list Api.News)) :
  Spec.absent_or_empty tweetsData →
  Spec.absent_or_empty newsData →
  App.stats tweetsData newsData
  = {| App.totalTweets := 0; App.uniqueQueries := 0;
       App.lastFetched := None; App.lastNews := None |}.
Proof.
  intros [-> | ->] [-> | ->]; reflexivity.
Qed.

Lemma stats_absent_or_empty_witness :
  Spec.absent_or_empty (@None (list Api.Tweet))
  ∧ Spec.absent_or_empty (Some (@nil Api.News))
  ∧ App.stats None (Some [])
    = {| App.totalTweets := 0; App.uniqueQueries := 0;
         App.lastFetched := None; App.lastNews := None |}.
Proof.
  split; [by left|]. split; [by right|].
  apply stats_absent_or_empty; [by left | by right].
Defined.

(** C1, as stated, fails: the first tweet of the sample carries both
    timestamps, and the statistics show its fetch timestamp, not its
    creation timestamp, so the creation-first rule does not describe
    [lastFetched]. *)
Lemma stats_lastFetched_not_creation_first :
  App.lastFetched (App.stats (Some [Sample.tweet_both]) None)
    = Some "2024-05-02T08:00:00Z"
  ∧ App.lastFetched (App.stats (Some [Sample.tweet_both]) None)
    ≠ Js.or (Api.tweet_created_at Sample.tweet_both)
            (Api.fetched_at Sample.tweet_both).
Proof.
  split; [reflexivity|]. vm_compute. discriminate.
Qed.

(** C1, amended. Both most-recent timestamps of the summary statistics are
    fetch-first: the one of the first tweet is its fetch timestamp, and its
    creation timestamp when the fetch timestamp is missing or empty; the one
    of the first news item is its fetch timestamp, and its creation
    timestamp when the fetch timestamp is missing or empty. *)
Theorem stats_timestamps_fetch_first
    (t : Api.Tweet) (tws : list Api.Tweet) (n : Api.News) (nws : list Api.News)
    (tweetsData : option (list Api.Tweet)) (newsData : option (list Api.News)) :
  let last_tweet := App.lastFetched (App.stats (Some (t :: tws)) newsData) in
  let last_news := App.lastNews (App.stats tweetsData (Some (n :: nws))) in
  (Js.truthy (Api.fetched_at t) = true → last_tweet = Api.fetched_at t)
  ∧ (Js.truthy (Api.fetched_at t) = false → last_tweet = Api.tweet_created_at t)
  ∧ (Js.truthy (Api.news_fetched_at n) = true → last_news = Api.news_fetched_at n)
  ∧ (Js.truthy (Api.news_fetched_at n) = false → last_news = Api.news_created_at n).
Proof.
  simpl. unfold Js.or.
  repeat split; intros ->; reflexivity.
Qed.

Lemma stats_timestamps_fetch_first_witness :
  Js.truthy (Api.fetched_at Sample.tweet_both) = true
  ∧ Js.truthy (Api.news_fetched_at Sample.news_created_only) = false
  ∧ App.lastFetched (App.stats (Some [Sample.tweet_both]) None)
    = Some "2024-05-02T08:00:00Z"
  ∧ App.lastNews (App.stats None (Some [Sample.news_created_only]))
    = Some "2024-04-30T09:00:00Z".
Proof.
  pose proof (stats_timestamps_fetch_first
                Sample.tweet_both [] Sample.news_created_only [] None None)
    as (Htweet & _ & _ & Hnews).
  split; [reflexivity|]. split; [reflexivity|]. split.
  - exact (Htweet eq_refl).
  - exact (Hnews eq_refl).
Defined.

(** ** The API client *)

Section request_facts.
Import Api.
Context `{Network}.
Variable env : Env.

Lemma API_BASE_URL_unset :
  VITE_API_BASE_URL env = None ∨ VITE_API_BASE_URL env = Some "" →
  API_BASE_URL env = "".
Proof. unfold API_BASE_URL. by intros [-> | ->]. Qed.

(** [request] once past its two guards. *)
Lemma request_past_guards (opts : FetchOptions) :
  API_BASE_URL env ≠ "" →
  URL_canParse (path opts) (API_BASE_URL env) = true →
  let url := add_search {| url_base := API_BASE_URL env;
                           url_path := path opts;
                           searchParams := [] |} (search opts) in
  let rq := {| req_url := url; req_headers := auth_headers env |} in
  request env opts =
    ([rq],
     match fetch rq with
     | inl e => inl e
     | inr res =>
         if ok res
         then match JSON_parse (body res) with
              | Some v => inr v
              | None => inl (SyntaxError "Unexpected token")
              end
         else inl (Error ("API " +:+ pretty (status res) +:+ ": " +:+ body res))
     end).
Proof.
  intros Hbase Hparse. unfold request, new_URL.
  destruct (String.eqb_spec (API_BASE_URL env) "") as [|_]; [done|].
  rewrite Hparse. simpl. unfold do_fetch. simpl.
  destruct (fetch _) as [e|res]; [done|].
  unfold res_json, res_text. destruct (ok res); simpl; [|done].
  by destruct (JSON_parse (body res)).
Qed.

(** [request] makes no call unless both guards pass. *)
Lemma request_sent_guards (opts : FetchOptions) (rq : Request) :
  request_sent env opts = Some rq →
  API_BASE_URL env ≠ "" ∧ URL_canParse (path opts) (API_BASE_URL env) = true.
Proof.
  unfold request_sent, request_calls, request, new_URL.
  destruct (String.eqb_spec (API_BASE_URL env) "") as [|Hne]; [done|].
  destruct (URL_canParse _ _); [done|]. simpl. done.
Qed.
End request_facts.

(** C5. When the configured base URL is absent or empty, [request] fails
    with the configuration error and has made no network call. *)
Theorem request_without_base_url `{Api.Network} (env : Api.Env) (opts : Api.FetchOptions) :
  Api.VITE_API_BASE_URL env = None ∨ Api.VITE_API_BASE_URL env = Some "" →
  Api.request env opts
  = ([], inl (Api.Error "API base URL is not set (VITE_API_BASE_URL).")).
Proof.
  intros Hunset. unfold Api.request.
  by rewrite (API_BASE_URL_unset env Hunset).
Qed.

Lemma request_without_base_url_witness :
  (Api.VITE_API_BASE_URL Sample.env_unset = None
   ∨ Api.VITE_API_BASE_URL Sample.env_unset = Some "")
  ∧ @Api.request Sample.network Sample.env_unset Sample.tweets_opts
    = ([], inl (Api.Error "API base URL is not set (VITE_API_BASE_URL).")).
Proof.
  split; [by left|].
  apply (@request_without_base_url Sample.network). by left.
Defined.

(** C6. When [fetch] answers the call of [request] with a status outside
    200-299, [request] fails with the error whose message is "API ", the
    status code, ": " and the body text; with a status in 200-299 it returns
    whatever value the body decodes to. *)
Theorem request_by_status `{Api.Network} (env : Api.Env) (opts : Api.FetchOptions)
    (rq : Api.Request) (res : Api.Response) :
  Api.request_sent env opts = Some rq →
  Api.fetch rq = inr res →
  Api.request_calls env opts = [rq]
  ∧ (¬ (200 ≤ Api.status res ≤ 299) →
     Api.request_outcome env opts
     = inl (Api.Error ("API " +:+ pretty (Api.status res) +:+ ": " +:+ Api.body res)))
  ∧ (200 ≤ Api.status res ≤ 299 →
     ∀ v : Api.json, Api.JSON_parse (Api.body res) = Some v →
       Api.request_outcome env opts = inr v).
Proof.
  intros Hsent Hres.
  destruct (request_sent_guards env opts rq Hsent) as [Hbase Hparse].
  unfold Api.request_sent, Api.request_calls, Api.request_outcome in *.
  rewrite (request_past_guards env opts Hbase Hparse) in *.
  simpl in Hsent. injection Hsent as <-. simpl. rewrite Hres.
  split; [done|]. unfold Api.ok. split.
  - intros Hbad.
    destruct (Z.leb_spec 200 (Api.status res)), (Z.leb_spec (Api.status res) 299);
      simpl; try done; lia.
  - intros Hgood v Hv.
    destruct (Z.leb_spec 200 (Api.status res)), (Z.leb_spec (Api.status res) 299);
      simpl; try lia.
    by rewrite Hv.
Qed.

Lemma request_by_status_witness :
  (@Api.request_sent Sample.network Sample.env Sample.news_opts
     = Some Sample.news_request
   ∧ @Api.fetch Sample.network Sample.news_request = inr Sample.news_response
   ∧ ¬ (200 ≤ Api.status Sample.news_response ≤ 299)
   ∧ @Api.request_outcome Sample.network Sample.env Sample.news_opts
     = inl (Api.Error "API 500: upstream down"))
  ∧ (@Api.request_sent Sample.network Sample.env Sample.tweets_opts
       = Some Sample.tweets_request
     ∧ @Api.fetch Sample.network Sample.tweets_request = inr Sample.tweets_response
     ∧ 200 ≤ Api.status Sample.tweets_response ≤ 299
     ∧ @Api.JSON_parse Sample.network (Api.body Sample.tweets_response)
       = Some (Api.JArray [])
     ∧ @Api.request_outcome Sample.network Sample.env Sample.tweets_opts
       = inr (Api.JArray [])).
Proof.
  split.
  - split; [reflexivity|]. split; [reflexivity|].
    split; [simpl; lia|].
    refine (proj1 (proj2 (@request_by_status Sample.network Sample.env
                            Sample.news_opts Sample.news_request
                            Sample.news_response eq_refl eq_refl)) _).
    simpl; lia.
  - split; [reflexivity|]. split; [reflexivity|].
    split; [simpl; lia|]. split; [reflexivity|].
    refine (proj2 (proj2 (@request_by_status Sample.network Sample.env
                            Sample.tweets_opts Sample.tweets_request
                            Sample.tweets_response eq_refl eq_refl))
              _ (Api.JArray []) eq_refl).
    simpl; lia.
Defined.

(** ** The query string built by [request] *)

Section query_facts.
Import Api.
Implicit Types l : list (string * string).
Implicit Types entries : list (string * param).

Lemma searchParams_set_elem_of (k v : string) l (k' v' : string) :
  (k', v') ∈ searchParams_set k v l
  ↔ (k' = k ∧ v' = v) ∨ (k' ≠ k ∧ (k', v') ∈ l).
Proof.
  induction l as [|[k0 v0] l IH]; simpl.
  - rewrite list_elem_of_singleton, elem_of_nil. naive_solver.
  - destruct (String.eqb_spec k0 k) as [->|Hne].
    + rewrite !elem_of_cons, list_elem_of_In, filter_In, <- list_elem_of_In.
      simpl. rewrite negb_true_iff, String.eqb_neq. naive_solver.
    + rewrite !elem_of_cons, IH. naive_solver.
Qed.

(** A pair is in the query after the loop exactly when the loop set it
    or it was there before and the loop did not touch its key. *)
Lemma add_param_fold_elem_of entries (u0 : URL) (k s : string) :
  NoDup (entries.*1) →
  (k, s) ∈ searchParams (fold_left add_param entries u0)
  ↔ (∃ v, (k, v) ∈ entries ∧ present v = true ∧ s = String_of v)
    ∨ ((k, s) ∈ searchParams u0
       ∧ ¬ ∃ v, (k, v) ∈ entries ∧ present v = true).
Proof.
  revert u0. induction entries as [|[k0 v0] entries IH]; intros u0 Hnd; simpl.
  - split; [|intros [(v & Hv & _)|[? _]]; [by apply elem_of_nil in Hv|done]].
    intros Hin. right. split; [done|]. intros (v & Hv & _).
    by apply elem_of_nil in Hv.
  - simpl in Hnd. apply NoDup_cons in Hnd as [Hfresh Hnd].
    assert (∀ v, (k0, v) ∉ entries) as Hk0.
    { intros v Hv. apply Hfresh. apply list_elem_of_fmap. by exists (k0, v). }
    rewrite (IH _ Hnd). unfold add_param. simpl.
    setoid_rewrite elem_of_cons.
    destruct (present v0) eqn:Hp; simpl.
    + rewrite searchParams_set_elem_of. split.
      * intros [(v & Hv & Hpv & ->)|[[[-> ->]|[Hne Hin]] Hno]].
        -- left. eauto.
        -- left. eauto.
        -- right. split; [done|]. intros (v & [Heq|Hv] & Hpv).
           ++ congruence.
           ++ apply Hno. eauto.
      * intros [(v & [Heq|Hv] & Hpv & ->)|[Hin Hno]].
        -- injection Heq as -> ->. right. split; [by left|].
           intros (v' & Hv' & _). by apply (Hk0 v').
        -- left. eauto.
        -- right. split.
           ++ right. split; [|done]. intros ->. apply Hno. eauto.
           ++ intros (v & Hv & Hpv). apply Hno. eauto.
    + split.
      * intros [(v & Hv & Hpv & ->)|[Hin Hno]].
        -- left. eauto.
        -- right. split; [done|]. intros (v & [Heq|Hv] & Hpv).
           ++ congruence.
           ++ apply Hno. eauto.
      * intros [(v & [Heq|Hv] & Hpv & ->)|[Hin Hno]].
        -- congruence.
        -- left. eauto.
        -- right. split; [done|]. intros (v & Hv & Hpv). apply Hno. eauto.
Qed.

(** Distinct keys: a key has one value in the entries. *)
Lemma entries_functional entries (k : string) (v v' : param) :
  NoDup (entries.*1) → (k, v) ∈ entries → (k, v') ∈ entries → v = v'.
Proof.
  intros Hnd Hv Hv'.
  induction entries as [|[k0 v0] entries IH]; [by apply elem_of_nil in Hv|].
  simpl in Hnd. apply NoDup_cons in Hnd as [Hfresh Hnd].
  assert (∀ w, (k0, w) ∉ entries) as Hk0.
  { intros w Hw. apply Hfresh. apply list_elem_of_fmap. by exists (k0, w). }
  apply elem_of_cons in Hv as [Hv|Hv], Hv' as [Hv'|Hv'].
  - congruence.
  - injection Hv as -> ->. by destruct (Hk0 v').
  - injection Hv' as -> ->. by destruct (Hk0 v).
  - by apply IH.
Qed.
End query_facts.

(** C4. In the URL [request] passes to [fetch], a key of the parameter map
    whose value is undefined or null is not a key of the query, and a key
    whose value is a string or a number is there once, with the value
    converted by [String]. *)
Theorem request_query_params `{Api.Network} (env : Api.Env) (opts : Api.FetchOptions)
    (entries : list (string * Api.param)) (rq : Api.Request) :
  Api.search opts = Some entries →
  NoDup (entries.*1) →
  Api.request_sent env opts = Some rq →
  (∀ k v, (k, v) ∈ entries → v = Api.PUndefined ∨ v = Api.PNull →
     k ∉ ((Api.searchParams (Api.req_url rq)).*1))
  ∧ (∀ k v, (k, v) ∈ entries → Api.present v = true →
       (k, Api.String_of v) ∈ Api.searchParams (Api.req_url rq)
       ∧ ∀ s, (k, s) ∈ Api.searchParams (Api.req_url rq) → s = Api.String_of v).
Proof.
  intros Hsearch Hnd Hsent.
  destruct (request_sent_guards env opts rq Hsent) as [Hbase Hparse].
  unfold Api.request_sent, Api.request_calls in Hsent.
  rewrite (request_past_guards env opts Hbase Hparse) in Hsent.
  simpl in Hsent. injection Hsent as <-. simpl.
  rewrite Hsearch. simpl.
  set (u0 := {| Api.url_base := _ |}).
  assert (∀ k s, (k, s) ∈ Api.searchParams (fold_left Api.add_param entries u0)
                 ↔ ∃ v, (k, v) ∈ entries ∧ Api.present v = true
                        ∧ s = Api.String_of v) as Hquery.
  { intros k s. rewrite (add_param_fold_elem_of entries u0 k s Hnd).
    subst u0. simpl. rewrite elem_of_nil. naive_solver. }
  split.
  - intros k v Hin Habsent Hkey.
    apply list_elem_of_fmap in Hkey as ([k' s] & -> & Hks). simpl in *.
    apply Hquery in Hks as (v' & Hin' & Hp & _).
    rewrite (entries_functional entries k' v v' Hnd Hin Hin') in Habsent.
    destruct Habsent as [-> | ->]; discriminate.
  - intros k v Hin Hp. split.
    + apply Hquery. eauto.
    + intros s Hks. apply Hquery in Hks as (v' & Hin' & _ & ->).
      by rewrite (entries_functional entries k v v' Hnd Hin Hin').
Qed.

Lemma request_query_params_witness :
  Api.search Sample.tweets_opts = Some [("q", Api.PStr "a"); ("search", Api.PUndefined)]
  ∧ NoDup ([("q", Api.PStr "a"); ("search", Api.PUndefined)].*1)
  ∧ @Api.request_sent Sample.network Sample.env Sample.tweets_opts
    = Some Sample.tweets_request
  ∧ ("search" ∉ (Api.searchParams (Api.req_url Sample.tweets_request)).*1)
  ∧ ("q", "a") ∈ Api.searchParams (Api.req_url Sample.tweets_request).
Proof.
  assert (NoDup ([("q", Api.PStr "a"); ("search", Api.PUndefined)].*1)) as Hnd.
  { simpl. repeat constructor; rewrite ?elem_of_cons, ?elem_of_nil;
      intros Hin; repeat destruct Hin as [Hin|Hin]; try discriminate; done. }
  pose proof (@request_query_params Sample.network Sample.env Sample.tweets_opts
                _ Sample.tweets_request eq_refl Hnd eq_refl) as [Habsent Hpresent].
  split; [reflexivity|]. split; [exact Hnd|]. split; [reflexivity|]. split.
  - apply (Habsent "search" Api.PUndefined); [|by left].
    apply elem_of_cons. right. apply elem_of_cons. by left.
  - apply (Hpresent "q" (Api.PStr "a")); [|reflexivity].
    apply elem_of_cons. by left.
Defined.

(** ** The live feed *)

Example entries_site_filter :
  @LiveFeed.entries Sample.runtime (Some Sample.feed_tweets) (Some Sample.feed_news)
    Sample.site_filter
  = Sample.feed_expected.
Proof. vm_compute. reflexivity. Qed.

Section includes_facts.

Lemma append_cons (c : ascii) (s t : string) :
  String c s +:+ t = String c (s +:+ t).
Proof. reflexivity. Qed.

Lemma append_empty (t : string) : "" +:+ t = t.
Proof. reflexivity. Qed.

Lemma prefix_iff_app (sub s : string) :
  String.prefix sub s = true ↔ ∃ post, s = sub +:+ post.
Proof.
  revert s. induction sub as [|c sub IH]; intros [|c' s]; simpl.
  - split; [by exists ""|done].
  - split; [by exists (String c' s)|done].
  - split; [done|]. intros [post Hpost]. discriminate.
  - setoid_rewrite append_cons.
    destruct (Ascii.ascii_dec c c') as [->|Hne].
    + rewrite IH. split; intros [post Hpost]; exists post; congruence.
    + split; [done|]. intros [post Hpost]. congruence.
Qed.

Lemma includes_unfold (s sub : string) :
  Js.includes s sub
  = String.prefix sub s
    || match s with
       | EmptyString => false
       | String _ rest => Js.includes rest sub
       end.
Proof. by destruct s. Qed.

Lemma includes_contains (s sub : string) :
  Js.includes s sub = true ↔ Spec.contains s sub.
Proof.
  unfold Spec.contains. split.
  - induction s as [|c s IH]; rewrite includes_unfold, orb_true_iff, prefix_iff_app.
    + intros [[post Hpost]|?]; [|done]. by exists "", post.
    + intros [[post Hpost]|Hrest]; [by exists "", post|].
      destruct (IH Hrest) as (pre & post & ->). by exists (String c pre), post.
  - intros (pre & post & ->). induction pre as [|c pre IH].
    + rewrite append_empty, includes_unfold.
      apply orb_true_iff. left. apply prefix_iff_app. eauto.
    + rewrite append_cons, includes_unfold. apply orb_true_iff. by right.
Qed.

Lemma includes_empty (s : string) : Js.includes s "" = true.
Proof. apply includes_contains. by exists "", s. Qed.

End includes_facts.

Section sort_facts.
Context {A : Type} (key : A → Z) (cmp : A → A → Z).
(** The comparator orders by [key], largest first. *)
Hypothesis cmp_key : ∀ a b, cmp a b = key b - key a.
Implicit Types l : list A.

Lemma insert_sorted_perm (a : A) l : Js.insert_sorted cmp a l ≡ₚ a :: l.
Proof.
  induction l as [|b l IH]; simpl; [done|].
  destruct (cmp a b <=? 0); [done|].
  rewrite IH. apply Permutation_swap.
Qed.

Lemma sort_perm l : Js.sort cmp l ≡ₚ l.
Proof.
  induction l as [|a l IH]; simpl; [done|].
  change (Js.insert_sorted cmp a (Js.sort cmp l) ≡ₚ a :: l).
  by rewrite insert_sorted_perm, IH.
Qed.

Lemma insert_sorted_desc (a : A) l :
  StronglySorted (fun a b : A => key b ≤ key a) l → StronglySorted (fun a b : A => key b ≤ key a) (Js.insert_sorted cmp a l).
Proof.
  induction l as [|b l IH]; simpl; intros Hl.
  - repeat constructor.
  - apply StronglySorted_cons in Hl as [Hb Hl]. rewrite cmp_key.
    destruct (Z.leb_spec (key b - key a) 0) as [Hle|Hgt].
    + apply StronglySorted_cons. split.
      * constructor; [lia|]. eapply Forall_impl; [exact Hb|].
        intros y Hy. simpl in Hy. lia.
      * apply StronglySorted_cons. done.
    + apply StronglySorted_cons. split; [|by apply IH].
      rewrite insert_sorted_perm. constructor; [lia|done].
Qed.

Lemma sort_desc l : StronglySorted (fun a b : A => key b ≤ key a) (Js.sort cmp l).
Proof.
  induction l as [|a l IH]; simpl; [constructor|].
  by apply insert_sorted_desc.
Qed.

(** Stability: among the elements of one key the order is kept. *)
Lemma insert_sorted_stable (k : Z) (a : A) l :
  StronglySorted (fun a b : A => key b ≤ key a) l →
  List.filter (fun x => key x =? k) (Js.insert_sorted cmp a l)
  = List.filter (fun x => key x =? k) (a :: l).
Proof.
  induction l as [|b l IH]; simpl; intros Hl; [done|].
  apply StronglySorted_cons in Hl as [Hb Hl]. rewrite cmp_key.
  destruct (Z.leb_spec (key b - key a) 0) as [Hle|Hgt]; [done|].
  simpl. rewrite (IH Hl). simpl.
  destruct (Z.eqb_spec (key a) k), (Z.eqb_spec (key b) k); try done; lia.
Qed.

Lemma sort_stable (k : Z) l :
  List.filter (fun x => key x =? k) (Js.sort cmp l)
  = List.filter (fun x => key x =? k) l.
Proof.
  induction l as [|a l IH]; simpl; [done|].
  change (List.filter (fun x => key x =? k)
            (Js.insert_sorted cmp a (Js.sort cmp l)) = 
          if key a =? k then a :: List.filter (fun x => key x =? k) l
          else List.filter (fun x => key x =? k) l).
  rewrite insert_sorted_stable by apply sort_desc. simpl. by rewrite IH.
Qed.
End sort_facts.

Section entries_facts.
Import LiveFeed.
Context `{Runtime}.

Lemma normalize_Some (s : string) : normalize (Some s) = toLowerCase s.
Proof.
  unfold normalize. simpl. by destruct (String.eqb_spec s "") as [->|].
Qed.

Lemma normalize_value (f : Filter) :
  normalize (value f) = toLowerCase (Js.or_default (value f) "").
Proof. reflexivity. Qed.

Lemma time_of_parsed_time (it : Item) : time_of (ts it) = Spec.parsed_time it.
Proof.
  unfold time_of, getTime, Spec.parsed_time, Js.num_or_zero.
  by destruct (ts it) as [s|].
Qed.

(** The filter callback keeps exactly the items that pass the rule. *)
Lemma keep_passes (f : Filter) (it : Item) :
  keep f it = true ↔ Spec.passes f it.
Proof.
  unfold keep, Spec.passes, Spec.contains_ci.
  rewrite !normalize_Some, normalize_value.
  set (v := Js.or_default (value f) "").
  destruct (decide (type f = all)) as [Hall|Hnot]; [by split; [left|]|].
  destruct (String.eqb_spec (toLowerCase v) "") as [Hempty|Hval].
  - split; [|done]. intros _. right. right. left.
    rewrite Hempty. apply includes_contains, includes_empty.
  - assert (v ≠ "") as Hv.
    { intros Hv. apply Hval. rewrite Hv. apply toLowerCase_empty. }
    destruct (type f); simpl; try done;
      rewrite orb_true_iff, !includes_contains; naive_solver.
Qed.
End entries_facts.

(** C3. The live feed keeps exactly the merged items that pass the filter
    rule (every item when the filter kind is [all] or the value is empty,
    otherwise the items whose meta-label or text contains the value, letter
    case ignored), orders the kept items newest first by parsed timestamp,
    a timestamp that does not parse counting as epoch zero, and returns the
    first 10 of them, so at most 10. *)
Theorem entries_filter_sort_cap `{LiveFeed.Runtime}
    (tweetsData : option (list Api.Tweet)) (newsData : option (list Api.News))
    (f : LiveFeed.Filter) :
  let merged := LiveFeed.items tweetsData newsData in
  let kept := List.filter (LiveFeed.keep f) merged in
  let sorted := Js.sort LiveFeed.by_time_desc kept in
  (∀ it, it ∈ kept ↔ it ∈ merged ∧ Spec.passes f it)
  ∧ sorted ≡ₚ kept
  ∧ StronglySorted Spec.newest_first sorted
  ∧ LiveFeed.entries tweetsData newsData f = take 10 sorted
  ∧ (length (LiveFeed.entries tweetsData newsData f) ≤ 10)%nat.
Proof.
  intros merged kept sorted.
  assert (∀ a b, LiveFeed.by_time_desc a b
                 = Spec.parsed_time b - Spec.parsed_time a) as Hcmp.
  { intros a b. unfold LiveFeed.by_time_desc. by rewrite !time_of_parsed_time. }
  assert (LiveFeed.entries tweetsData newsData f = take 10 sorted) as Hentries.
  { exact (slice_first_n 10 sorted). }
  split.
  { intros it. unfold kept.
    rewrite list_elem_of_In, filter_In, <- list_elem_of_In, keep_passes. done. }
  subst sorted. rewrite Hentries.
  split; [exact (sort_perm _ kept)|].
  split; [exact (sort_desc Spec.parsed_time _ Hcmp kept)|]. split; [done|].
  rewrite length_take. lia.
Qed.

(** * Further properties *)

(** ** The API client: calls, headers and failures *)

Section request_more.
Import Api.
Context `{Network}.
Variable env : Env.

(** [request] stopped by an unparsable URL. *)
Lemma request_bad_url (opts : FetchOptions) :
  API_BASE_URL env ≠ "" →
  URL_canParse (path opts) (API_BASE_URL env) = false →
  request env opts = ([], inl (TypeError "Invalid URL")).
Proof.
  intros Hbase Hparse. unfold request, new_URL.
  destruct (String.eqb_spec (API_BASE_URL env) "") as [|_]; [done|].
  by rewrite Hparse.
Qed.

(** [request] stopped by the missing base URL. *)
Lemma request_no_base (opts : FetchOptions) :
  API_BASE_URL env = "" →
  request env opts
  = ([], inl (Error "API base URL is not set (VITE_API_BASE_URL).")).
Proof. intros Hbase. unfold request. by rewrite Hbase. Qed.

(** The call [request] makes is determined by the configuration and the
    options. *)
Lemma request_sent_inv (opts : FetchOptions) (rq : Request) :
  request_sent env opts = Some rq →
  rq = {| req_url := add_search {| url_base := API_BASE_URL env;
                                   url_path := path opts;
                                   searchParams := [] |} (search opts);
          req_headers := auth_headers env |}.
Proof.
  intros Hsent.
  destruct (request_sent_guards env opts rq Hsent) as [Hbase Hparse].
  unfold request_sent, request_calls in Hsent.
  rewrite (request_past_guards env opts Hbase Hparse) in Hsent.
  simpl in Hsent. by injection Hsent as <-.
Qed.

Lemma searchParams_set_fresh (k v : string) (l : list (string * string)) :
  k ∉ l.*1 → searchParams_set k v l = l ++ [(k, v)].
Proof.
  induction l as [|[k0 v0] l IH]; simpl; intros Hk; [done|].
  apply not_elem_of_cons in Hk as [Hne Hk].
  destruct (String.eqb_spec k0 k) as [->|_]; [done|]. by rewrite IH.
Qed.

(** The loop appends the present parameters when their keys are distinct
    and new to the query. *)
Lemma add_param_fold_query (entries : list (string * param)) (u : URL) :
  NoDup (entries.*1) →
  (∀ k, k ∈ entries.*1 → k ∉ (searchParams u).*1) →
  searchParams (fold_left add_param entries u)
  = searchParams u ++ Spec.query_of entries.
Proof.
  revert u. induction entries as [|[k0 v0] entries IH]; intros u Hnd Hnew; simpl.
  - by rewrite app_nil_r.
  - simpl in Hnd. apply NoDup_cons in Hnd as [Hfresh Hnd].
    unfold Spec.query_of. simpl. fold (Spec.query_of entries).
    unfold add_param at 2. simpl. destruct (present v0) eqn:Hp.
    + rewrite IH; [|done|].
      * simpl. rewrite searchParams_set_fresh by (apply Hnew; simpl; by left).
        by rewrite <- app_assoc.
      * intros k Hk. simpl.
        rewrite searchParams_set_fresh by (apply Hnew; simpl; by left).
        rewrite fmap_app, not_elem_of_app. split.
        -- apply Hnew. simpl. by right.
        -- simpl. rewrite list_elem_of_singleton. by intros ->.
    + rewrite IH; [done|done|]. intros k Hk. apply Hnew. simpl. by right.
Qed.
End request_more.

(** X1. The query of the URL [request] passes to [fetch] is the list of the
    present parameters of the map, converted to strings, in the order of
    the map's entries; the path is the one requested and the base is the
    configured one. *)
Theorem request_query_in_order `{Api.Network} (env : Api.Env) (opts : Api.FetchOptions)
    (entries : list (string * Api.param)) (rq : Api.Request) :
  Api.search opts = Some entries →
  NoDup (entries.*1) →
  Api.request_sent env opts = Some rq →
  Api.req_url rq
  = {| Api.url_base := Api.API_BASE_URL env;
       Api.url_path := Api.path opts;
       Api.searchParams := Spec.query_of entries |}.
Proof.
  intros Hsearch Hnd Hsent.
  rewrite (request_sent_inv env opts rq Hsent). simpl. rewrite Hsearch. simpl.
  set (u0 := {| Api.url_base := _ |}).
  assert (Api.searchParams (fold_left Api.add_param entries u0)
          = Spec.query_of entries) as Hquery.
  { rewrite add_param_fold_query; [done|done|].
    intros k _. apply not_elem_of_nil. }
  assert (∀ es u, Api.url_base (fold_left Api.add_param es u) = Api.url_base u
                  ∧ Api.url_path (fold_left Api.add_param es u) = Api.url_path u)
    as Hkeep.
  { induction es as [|kv es IH]; intros u; simpl; [done|].
    destruct (IH (Api.add_param u kv)) as [-> ->].
    unfold Api.add_param. by destruct (Api.present (snd kv)). }
  destruct (Hkeep entries u0) as [Hb Hp].
  destruct (fold_left Api.add_param entries u0) as [b p q]. simpl in *.
  by subst.
Qed.

Lemma request_query_in_order_witness :
  Api.search Sample.tweets_opts = Some [("q", Api.PStr "a"); ("search", Api.PUndefined)]
  ∧ NoDup ([("q", Api.PStr "a"); ("search", Api.PUndefined)].*1)
  ∧ @Api.request_sent Sample.network Sample.env Sample.tweets_opts
    = Some Sample.tweets_request
  ∧ Api.req_url Sample.tweets_request
    = {| Api.url_base := "http://api.test"; Api.url_path := "/tweets";
         Api.searchParams := [("q", "a")] |}.
Proof.
  assert (NoDup ([("q", Api.PStr "a"); ("search", Api.PUndefined)].*1)) as Hnd.
  { simpl. repeat constructor; rewrite ?elem_of_cons, ?elem_of_nil;
      intros Hin; repeat destruct Hin as [Hin|Hin]; try discriminate; done. }
  split; [reflexivity|]. split; [exact Hnd|]. split; [reflexivity|].
  exact (@request_query_in_order Sample.network Sample.env Sample.tweets_opts
           _ Sample.tweets_request eq_refl Hnd eq_refl).
Defined.

(** X2. Every call of [request] carries one header, [Authorization] with
    the value "Bearer " followed by the configured token, and by nothing
    when no token is configured. *)
Theorem request_authorization_header `{Api.Network} (env : Api.Env)
    (opts : Api.FetchOptions) (rq : Api.Request) :
  Api.request_sent env opts = Some rq →
  Api.req_headers rq
  = [("Authorization", "Bearer " +:+ default "" (Api.VITE_API_TOKEN env))].
Proof.
  intros Hsent. rewrite (request_sent_inv env opts rq Hsent). simpl.
  unfold Api.auth_headers, Api.API_TOKEN, Js.or_default.
  destruct (Api.VITE_API_TOKEN env) as [tok|]; simpl; [|done].
  by destruct (String.eqb_spec tok "") as [->|].
Qed.

Lemma request_authorization_header_witness :
  @Api.request_sent Sample.network Sample.env_no_token Sample.news_opts
  = Some {| Api.req_url := Api.req_url Sample.news_request;
            Api.req_headers := [("Authorization", "Bearer ")] |}
  ∧ Api.req_headers {| Api.req_url := Api.req_url Sample.news_request;
                       Api.req_headers := [("Authorization", "Bearer ")] |}
    = [("Authorization", "Bearer ")].
Proof.
  split; [reflexivity|].
  exact (@request_authorization_header Sample.network Sample.env_no_token
           Sample.news_opts _ eq_refl).
Defined.

(** X3. [request] makes at most one network call, and it makes none exactly
    when the base URL is empty or the URL does not parse; the token plays
    no part in that. *)
Theorem request_calls_at_most_one `{Api.Network} (env : Api.Env)
    (opts : Api.FetchOptions) :
  (length (Api.request_calls env opts) ≤ 1)%nat
  ∧ (Api.request_calls env opts = []
     ↔ Api.API_BASE_URL env = ""
       ∨ Api.URL_canParse (Api.path opts) (Api.API_BASE_URL env) = false).
Proof.
  unfold Api.request_calls.
  destruct (decide (Api.API_BASE_URL env = "")) as [Hbase|Hbase].
  { rewrite (request_no_base env opts Hbase). simpl. split; [lia|]. by split; [left|]. }
  destruct (Api.URL_canParse (Api.path opts) (Api.API_BASE_URL env)) eqn:Hparse.
  - rewrite (request_past_guards env opts Hbase Hparse). simpl.
    split; [lia|]. split; [done|]. by intros [?|?].
  - rewrite (request_bad_url env opts Hbase Hparse). simpl.
    split; [lia|]. by split; [right|].
Qed.

(** X4. [request] resolves with a value only when it made a call, the
    answer had a status in 200-299 and the body decoded to that value. *)
Theorem request_success_iff `{Api.Network} (env : Api.Env) (opts : Api.FetchOptions)
    (v : Api.json) :
  Api.request_outcome env opts = inr v
  ↔ ∃ rq res, Api.request_sent env opts = Some rq
              ∧ Api.fetch rq = inr res
              ∧ 200 ≤ Api.status res ≤ 299
              ∧ Api.JSON_parse (Api.body res) = Some v.
Proof.
  unfold Api.request_outcome, Api.request_sent, Api.request_calls.
  destruct (decide (Api.API_BASE_URL env = "")) as [Hbase|Hbase].
  { rewrite (request_no_base env opts Hbase). simpl.
    split; [done|]. by intros (rq & res & ? & _). }
  destruct (Api.URL_canParse (Api.path opts) (Api.API_BASE_URL env)) eqn:Hparse.
  2:{ rewrite (request_bad_url env opts Hbase Hparse). simpl.
      split; [done|]. by intros (rq & res & ? & _). }
  rewrite (request_past_guards env opts Hbase Hparse). simpl.
  set (rq0 := {| Api.req_url := _ |}). split.
  - destruct (Api.fetch rq0) as [e|res] eqn:Hres; [done|].
    unfold Api.ok.
    destruct (Z.leb_spec 200 (Api.status res)), (Z.leb_spec (Api.status res) 299);
      simpl; try done.
    destruct (Api.JSON_parse (Api.body res)) as [v'|] eqn:Hv; [|done].
    intros [= <-]. exists rq0, res. repeat split; done.
  - intros (rq & res & [= <-] & Hres & Hstatus & Hv). rewrite Hres.
    unfold Api.ok.
    destruct (Z.leb_spec 200 (Api.status res)), (Z.leb_spec (Api.status res) 299);
      simpl; try lia.
    by rewrite Hv.
Qed.

(** X5. A rejection of [fetch] is the rejection of [request], unchanged,
    after the one call. *)
Theorem request_transport_error `{Api.Network} (env : Api.Env)
    (opts : Api.FetchOptions) (rq : Api.Request) (e : Api.js_error) :
  Api.request_sent env opts = Some rq →
  Api.fetch rq = inl e →
  Api.request env opts = ([rq], inl e).
Proof.
  intros Hsent Hrej.
  destruct (request_sent_guards env opts rq Hsent) as [Hbase Hparse].
  pose proof (request_sent_inv env opts rq Hsent) as Hrq.
  rewrite (request_past_guards env opts Hbase Hparse). simpl.
  rewrite <- Hrq. by rewrite Hrej.
Qed.

Lemma request_transport_error_witness :
  @Api.request_sent Sample.network_down Sample.env Sample.news_opts
  = Some Sample.news_request
  ∧ @Api.fetch Sample.network_down Sample.news_request
    = inl (Api.TypeError "Failed to fetch")
  ∧ @Api.request Sample.network_down Sample.env Sample.news_opts
    = ([Sample.news_request], inl (Api.TypeError "Failed to fetch")).
Proof.
  split; [reflexivity|]. split; [reflexivity|].
  exact (@request_transport_error Sample.network_down Sample.env Sample.news_opts
           Sample.news_request _ eq_refl eq_refl).
Defined.

(** X6. An answer with a status in 200-299 whose body is not JSON makes
    [request] fail with a [SyntaxError]: the decode failure is not caught. *)
Theorem request_decode_error `{Api.Network} (env : Api.Env)
    (opts : Api.FetchOptions) (rq : Api.Request) (res : Api.Response) :
  Api.request_sent env opts = Some rq →
  Api.fetch rq = inr res →
  200 ≤ Api.status res ≤ 299 →
  Api.JSON_parse (Api.body res) = None →
  ∃ message, Api.request_outcome env opts = inl (Api.SyntaxError message).
Proof.
  intros Hsent Hres Hstatus Hbody.
  destruct (request_sent_guards env opts rq Hsent) as [Hbase Hparse].
  pose proof (request_sent_inv env opts rq Hsent) as Hrq.
  unfold Api.request_outcome.
  rewrite (request_past_guards env opts Hbase Hparse). simpl.
  rewrite <- Hrq, Hres. unfold Api.ok.
  destruct (Z.leb_spec 200 (Api.status res)), (Z.leb_spec (Api.status res) 299);
    simpl; try lia.
  rewrite Hbody. eauto.
Qed.

Lemma request_decode_error_witness :
  @Api.request_sent Sample.network_html Sample.env Sample.news_opts
  = Some Sample.news_request
  ∧ @Api.fetch Sample.network_html Sample.news_request
    = inr {| Api.status := 200; Api.body := "<html>" |}
  ∧ 200 ≤ 200 ≤ 299
  ∧ @Api.JSON_parse Sample.network_html "<html>" = None
  ∧ ∃ message, @Api.request_outcome Sample.network_html Sample.env Sample.news_opts
               = inl (Api.SyntaxError message).
Proof.
  split; [reflexivity|]. split; [reflexivity|]. split; [lia|]. split; [reflexivity|].
  apply (@request_decode_error Sample.network_html Sample.env Sample.news_opts
           Sample.news_request {| Api.status := 200; Api.body := "<html>" |});
    [reflexivity | reflexivity | simpl; lia | reflexivity].
Defined.

(** ** The four call shapes *)

(** X7. The calls of [fetchNews], of [fetchDailyStats] and of the live
    feed's [fetchTweets()] go to /news, /stats/daily and /tweets of the
    configured base with an empty query. *)
Theorem endpoints_without_parameters `{Api.Network} (env : Api.Env) (rq : Api.Request) :
  let url_to p := {| Api.url_base := Api.API_BASE_URL env; Api.url_path := p;
                     Api.searchParams := [] |} in
  (head (fst (Api.fetchNews env)) = Some rq → Api.req_url rq = url_to "/news")
  ∧ (head (fst (Api.fetchDailyStats env)) = Some rq
     → Api.req_url rq = url_to "/stats/daily")
  ∧ (head (fst (LiveFeed.tweets_fn env)) = Some rq → Api.req_url rq = url_to "/tweets")
  ∧ (head (fst (LiveFeed.news_fn env)) = Some rq → Api.req_url rq = url_to "/news").
Proof.
  simpl. repeat split; intros Hsent;
    apply (request_sent_inv env) in Hsent; by rewrite Hsent.
Qed.

Lemma endpoints_without_parameters_witness :
  head (fst (@Api.fetchDailyStats Sample.network Sample.env))
  = Some Sample.daily_request
  ∧ Api.req_url Sample.daily_request
    = {| Api.url_base := "http://api.test"; Api.url_path := "/stats/daily";
         Api.searchParams := [] |}.
Proof.
  split; [reflexivity|].
  exact (proj1 (proj2 (@endpoints_without_parameters Sample.network Sample.env
                         Sample.daily_request)) eq_refl).
Defined.



(** X9. The tweets query of the dashboard sends the selected query tag as
    [q] and the search text as [search], in this order, and leaves out the
    one that is the empty string; with both empty the query is empty. *)
Theorem tweetsQuery_omits_empty_filters `{Api.Network} (env : Api.Env)
    (queryFilter search : string) (rq : Api.Request) :
  head (fst (App.tweetsQuery_fn env queryFilter search)) = Some rq →
  Api.req_url rq
  = {| Api.url_base := Api.API_BASE_URL env;
       Api.url_path := "/tweets";
       Api.searchParams :=
         (if String.eqb queryFilter "" then [] else [("q", queryFilter)])
         ++ (if String.eqb search "" then [] else [("search", search)]) |}.
Proof.
  intros Hsent. apply (request_sent_inv env) in Hsent. rewrite Hsent. simpl.
  unfold Api.add_param, App.or_undefined. simpl.
  destruct (String.eqb queryFilter ""), (String.eqb search ""); reflexivity.
Qed.

Lemma tweetsQuery_omits_empty_filters_witness :
  head (fst (@App.tweetsQuery_fn Sample.network Sample.env "" "storm"))
  = Some (Sample.tweets_request_with [("search", "storm")])
  ∧ Api.req_url (Sample.tweets_request_with [("search", "storm")])
    = {| Api.url_base := "http://api.test"; Api.url_path := "/tweets";
         Api.searchParams := [("search", "storm")] |}.
Proof.
  split; [reflexivity|].
  exact (@tweetsQuery_omits_empty_filters Sample.network Sample.env "" "storm"
           (Sample.tweets_request_with [("search", "storm")]) eq_refl).
Defined.

(** ** The derivations of [App], together *)

Lemma first_seen_length (l : list string) :
  (length (Spec.first_seen l) ≤ length l)%nat.
Proof.
  apply submseteq_length, NoDup_submseteq; [apply first_seen_NoDup|].
  intros x. by rewrite first_seen_elem_of.
Qed.

Lemma first_seen_nil (l : list string) : Spec.first_seen l = [] ↔ l = [].
Proof. by destruct l. Qed.

(** X10. The lists of recent tweets and of recent news are the first 20
    and the first 15 entries of the fetched data, in the order of the data,
    and empty while the data is absent; the tweet list shows 20 rows or,
    when fewer were fetched, as many as the "Toplam Tweet" card counts. *)
Theorem recent_lists_are_prefixes
    (tweetsData : option (list Api.Tweet)) (newsData : option (list Api.News)) :
  App.recentTweets tweetsData `prefix_of` default [] tweetsData
  ∧ App.recentNews newsData `prefix_of` default [] newsData
  ∧ length (App.recentTweets tweetsData) = Nat.min 20 (length (default [] tweetsData))
  ∧ length (App.recentNews newsData) = Nat.min 15 (length (default [] newsData))
  ∧ Z.of_nat (length (App.recentTweets tweetsData))
    = Z.min 20 (App.totalTweets (App.stats tweetsData newsData)).
Proof.
  assert (App.recentTweets tweetsData = take 20 (default [] tweetsData)) as ->.
  { destruct tweetsData as [d|]; [exact (slice_first_n 20 d)|done]. }
  assert (App.recentNews newsData = take 15 (default [] newsData)) as ->.
  { destruct newsData as [d|]; [exact (slice_first_n 15 d)|done]. }
  rewrite !length_take.
  split; [apply prefix_take|]. split; [apply prefix_take|].
  split; [done|]. split; [done|].
  destruct tweetsData as [d|]; unfold App.stats, default;
    cbn [App.totalTweets from_option length id]; lia.
Qed.

(** X11. The "Sorgu Çeşidi" card counts the options of the query selector:
    the number of distinct queries is the length of [queries], it is at
    most the number of tweets, and it is 0 exactly when there is no tweet. *)
Theorem stats_counts_agree
    (tweetsData : option (list Api.Tweet)) (newsData : option (list Api.News)) :
  let st := App.stats tweetsData newsData in
  App.uniqueQueries st = Z.of_nat (length (App.queries tweetsData))
  ∧ 0 ≤ App.uniqueQueries st ≤ App.totalTweets st
  ∧ (App.uniqueQueries st = 0 ↔ App.totalTweets st = 0).
Proof.
  destruct tweetsData as [d|]; simpl; [|by repeat split].
  rewrite Set_of_first_seen.
  pose proof (first_seen_length (map Api.query d)) as Hle.
  rewrite length_map in Hle.
  split; [done|]. split; [lia|].
  pose proof (first_seen_nil (map Api.query d)) as Hnil.
  destruct d as [|t d]; simpl in *; [done|]. split; lia.
Qed.

(** X12. The timeline has one point per tweet up to 50, and the section
    prints "Veri yok" exactly when the tweet data is absent or empty. *)
Theorem timeline_length_and_empty (tweetsData : option (list Api.Tweet)) :
  length (App.timeline tweetsData) = Nat.min 50 (length (default [] tweetsData))
  ∧ (App.timeline_is_empty (App.timeline tweetsData) = true
     ↔ Spec.absent_or_empty tweetsData).
Proof.
  assert (App.timeline tweetsData
          = take 50 (map App.timeline_point (default [] tweetsData))) as ->.
  { destruct tweetsData as [d|]; [|done].
    exact (slice_first_n 50 (map App.timeline_point d)). }
  rewrite length_take, length_map. split; [done|].
  unfold App.timeline_is_empty, Spec.absent_or_empty.
  rewrite length_take, length_map, Z.eqb_eq.
  destruct tweetsData as [[|t d]|]; unfold default; cbn [from_option length id].
  - split; [by right|done].
  - split; [lia|]. by intros [?|?].
  - split; [by left|done].
Qed.

(** X13. The first 20 points of the timeline are the tweets of the recent
    list, and the timestamp of each is the one the list prints in the row
    of that tweet. *)
Theorem timeline_matches_recent_list (tweetsData : option (list Api.Tweet)) :
  take 20 (App.timeline tweetsData)
  = map App.timeline_point (App.recentTweets tweetsData)
  ∧ map App.ts (take 20 (App.timeline tweetsData))
    = map App.TweetList_timestamp (App.recentTweets tweetsData)
  ∧ map App.tp_query (take 20 (App.timeline tweetsData))
    = map Api.query (App.recentTweets tweetsData).
Proof.
  assert (take 20 (App.timeline tweetsData)
          = map App.timeline_point (App.recentTweets tweetsData)) as ->.
  { destruct tweetsData as [d|]; [|done]. unfold App.timeline, App.recentTweets.
    etransitivity;
      [exact (f_equal (take 20) (slice_first_n 50 (map App.timeline_point d)))|].
    etransitivity;
      [|exact (f_equal (map App.timeline_point) (eq_sym (slice_first_n 20 d)))].
    rewrite take_take.
    change (take 20 (App.timeline_point <$> d) = App.timeline_point <$> take 20 d).
    by rewrite fmap_take. }
  split; [done|]. rewrite !map_map. split; reflexivity.
Qed.

(** X14. The area chart numbers the timeline points 1, 2, ... in order,
    gives every point the height 1 and keeps the query of each point. *)
Theorem timeline_chart_ranks (tl : list App.TimelinePoint) :
  map App.name (App.timeline_chart tl)
  = map (fun i => Z.of_nat i + 1) (seq 0 (length tl))
  ∧ map App.value (App.timeline_chart tl) = replicate (length tl) 1
  ∧ map App.ap_query (App.timeline_chart tl) = map App.tp_query tl.
Proof.
  unfold App.timeline_chart.
  assert (∀ f : nat → Z,
            map App.name
              (imap (fun i t => {| App.name := f i; App.ap_query := App.tp_query t;
                                  App.value := 1 |}) tl)
            = map f (seq 0 (length tl))
            ∧ map App.value
                (imap (fun i t => {| App.name := f i; App.ap_query := App.tp_query t;
                                    App.value := 1 |}) tl)
              = replicate (length tl) 1
            ∧ map App.ap_query
                (imap (fun i t => {| App.name := f i; App.ap_query := App.tp_query t;
                                    App.value := 1 |}) tl)
              = map App.tp_query tl) as Hgen.
  { induction tl as [|t tl IH]; intros f; simpl; [done|].
    destruct (IH (f ∘ S)) as (Hn & Hv & Hq).
    unfold compose in *. rewrite Hn, Hv, Hq.
    rewrite <- seq_shift, map_map. done. }
  exact (Hgen (fun i => Z.of_nat i + 1)).
Qed.

(** ** The charts *)

(** X15. The bar chart plots the first 14 rows of the response, in the
    reverse of the response's order: at most 14 bars, every bar a row of
    the response, and the whole response reversed when it has at most 14
    rows. *)
Theorem DailyChart_first_14_reversed (data : list Api.DailyStat) :
  App.DailyChart_mapped data = reverse (take 14 data)
  ∧ length (App.DailyChart_mapped data) = Nat.min 14 (length data)
  ∧ (∀ d, d ∈ App.DailyChart_mapped data → d ∈ take 14 data)
  ∧ ((length data ≤ 14)%nat → App.DailyChart_mapped data = reverse data).
Proof.
  assert (App.DailyChart_mapped data = reverse (take 14 data)) as ->.
  { unfold App.DailyChart_mapped. rewrite DailyChart_copy.
    etransitivity; [exact (slice_last_n 14 (reverse data) ltac:(lia))|].
    apply last_n_reverse. }
  split; [done|]. split; [by rewrite length_reverse, length_take|].
  split; [intros d; by rewrite elem_of_reverse|].
  intros Hshort. by rewrite take_ge.
Qed.

Lemma DailyChart_first_14_reversed_witness :
  (length (take 3 Sample.days20) ≤ 14)%nat
  ∧ map Api.day (App.DailyChart_mapped (take 3 Sample.days20)) = ["d3"; "d2"; "d1"].
Proof.
  split; [simpl; lia|].
  rewrite (proj2 (proj2 (proj2 (DailyChart_first_14_reversed (take 3 Sample.days20))))).
  - reflexivity.
  - simpl; lia.
Defined.

(** X16. Every cell of the pie chart gets a colour of the palette, the one
    at the cell's index modulo 6; with 8 cells the seventh and the eighth
    repeat the colours of the first and the second. *)
Theorem QueryPie_fills_cycle (data : list Api.QueryStat) :
  length (App.QueryPie_fills data) = Nat.min 8 (length data)
  ∧ (∀ i, (i < Nat.min 8 (length data))%nat →
       ∃ colour, App.QueryPie_fills data !! i = Some (Some colour)
                 ∧ App.COLORS !! (i mod 6)%nat = Some colour)
  ∧ ((8 ≤ length data)%nat →
     App.QueryPie_fills data !! 6%nat = App.QueryPie_fills data !! 0%nat
     ∧ App.QueryPie_fills data !! 7%nat = App.QueryPie_fills data !! 1%nat).
Proof.
  unfold App.QueryPie_fills.
  assert (App.QueryPie_trimmed data = take 8 data) as ->.
  { exact (slice_first_n 8 data). }
  rewrite length_imap, length_take. split; [done|].
  assert (∀ i, (i < Nat.min 8 (length data))%nat →
               imap (fun idx (_ : Api.QueryStat) =>
                       App.COLORS !! (idx mod length App.COLORS)%nat)
                    (take 8 data) !! i
               = Some (App.COLORS !! (i mod 6)%nat)) as Hcell.
  { intros i Hi. rewrite list_lookup_imap.
    destruct (lookup_lt_is_Some_2 (take 8 data) i) as [q Hq];
      [by rewrite length_take|].
    by rewrite Hq. }
  split.
  - intros i Hi. rewrite (Hcell i Hi).
    destruct (lookup_lt_is_Some_2 App.COLORS (i mod 6)%nat) as [c Hc].
    { change (length App.COLORS) with 6%nat. apply Nat.mod_upper_bound. lia. }
    exists c. by rewrite Hc.
  - intros Hfull. rewrite !Hcell by lia. done.
Qed.

Lemma QueryPie_fills_cycle_witness :
  (8 ≤ length Sample.top10)%nat
  ∧ (7 < Nat.min 8 (length Sample.top10))%nat
  ∧ App.QueryPie_fills Sample.top10 !! 7%nat = Some (Some "#ea580c")
  ∧ App.QueryPie_fills Sample.top10 !! 7%nat = App.QueryPie_fills Sample.top10 !! 1%nat.
Proof.
  split; [simpl; lia|]. split; [simpl; lia|]. split.
  - destruct (proj1 (proj2 (QueryPie_fills_cycle Sample.top10)) 7%nat)
      as (colour & -> & Hcolour); [simpl; lia|].
    do 2 f_equal. simpl in Hcolour. congruence.
  - apply (proj2 (proj2 (QueryPie_fills_cycle Sample.top10))). simpl; lia.
Defined.

(** ** Timestamps: the rows of the lists and the cards *)

(** X17. The "Son Tweet" card and the row of the first tweet show the same
    timestamp when exactly one of the tweet's two timestamps is present;
    when both are present they show the same one only if the two are
    equal. The same holds of the "Son Haber" card and the first news row. *)
Theorem cards_vs_first_rows
    (t : Api.Tweet) (tws : list Api.Tweet) (n : Api.News) (nws : list Api.News)
    (tweetsData : option (list Api.Tweet)) (newsData : option (list Api.News)) :
  let card_tweet := App.lastFetched (App.stats (Some (t :: tws)) newsData) in
  let card_news := App.lastNews (App.stats tweetsData (Some (n :: nws))) in
  (Spec.one_truthy (Api.tweet_created_at t) (Api.fetched_at t)
   → card_tweet = App.TweetList_timestamp t)
  ∧ (Js.truthy (Api.tweet_created_at t) = true
     → Js.truthy (Api.fetched_at t) = true
     → (card_tweet = App.TweetList_timestamp t
        ↔ Api.tweet_created_at t = Api.fetched_at t))
  ∧ (Spec.one_truthy (Api.news_created_at n) (Api.news_fetched_at n)
     → card_news = App.NewsList_timestamp n)
  ∧ (Js.truthy (Api.news_created_at n) = true
     → Js.truthy (Api.news_fetched_at n) = true
     → (card_news = App.NewsList_timestamp n
        ↔ Api.news_created_at n = Api.news_fetched_at n)).
Proof.
  assert (∀ created fetched : option string,
            (Spec.one_truthy created fetched
             → Js.or fetched created = Js.or created fetched)
            ∧ (Js.truthy created = true → Js.truthy fetched = true
               → (Js.or fetched created = Js.or created fetched
                  ↔ created = fetched))) as Hboth.
  { intros created fetched. unfold Spec.one_truthy, Js.or. split.
    - intros Hone. destruct (Js.truthy fetched); simpl in Hone; by rewrite Hone.
    - intros -> ->. done. }
  simpl. unfold App.TweetList_timestamp, App.NewsList_timestamp.
  destruct (Hboth (Api.tweet_created_at t) (Api.fetched_at t)) as [Ht1 Ht2].
  destruct (Hboth (Api.news_created_at n) (Api.news_fetched_at n)) as [Hn1 Hn2].
  done.
Qed.

Lemma cards_vs_first_rows_witness :
  Spec.one_truthy (Api.tweet_created_at Sample.tweet_created_only)
    (Api.fetched_at Sample.tweet_created_only)
  ∧ App.lastFetched (App.stats (Some [Sample.tweet_created_only]) None)
    = App.TweetList_timestamp Sample.tweet_created_only
  ∧ Js.truthy (Api.news_created_at Sample.news_both) = true
  ∧ Js.truthy (Api.news_fetched_at Sample.news_both) = true
  ∧ (App.lastNews (App.stats None (Some [Sample.news_both]))
     = App.NewsList_timestamp Sample.news_both
     ↔ Api.news_created_at Sample.news_both = Api.news_fetched_at Sample.news_both).
Proof.
  pose proof (cards_vs_first_rows Sample.tweet_created_only [] Sample.news_both []
                None None) as (Htweet & _ & _ & Hnews).
  split; [reflexivity|]. split; [exact (Htweet eq_refl)|].
  split; [reflexivity|]. split; [reflexivity|].
  exact (Hnews eq_refl eq_refl).
Defined.

(** ** The live feed: kinds, cap and ties *)

Section entries_more.
Import LiveFeed.
Context `{Runtime}.

Lemma by_time_desc_parsed (a b : Item) :
  by_time_desc a b = Spec.parsed_time b - Spec.parsed_time a.
Proof. unfold by_time_desc. by rewrite !time_of_parsed_time. Qed.

Lemma entries_take (tweetsData : option (list Api.Tweet))
    (newsData : option (list Api.News)) (f : Filter) :
  entries tweetsData newsData f
  = take 10 (Js.sort by_time_desc
               (List.filter (keep f) (items tweetsData newsData))).
Proof. exact (slice_first_n 10 _). Qed.

(** The three kinds other than [all] test an item in the same way. *)
Lemma keep_kind_irrelevant (v : option string) (it : Item) :
  keep {| type := site; value := v |} it = keep {| type := place; value := v |} it
  ∧ keep {| type := place; value := v |} it = keep {| type := person; value := v |} it.
Proof.
  unfold keep. simpl.
  destruct (String.eqb (normalize v) ""); [done|].
  split; [apply orb_comm|done].
Qed.

(** Without a value, or with the kind [all], every item is kept. *)
Lemma keep_everything (f : Filter) (it : Item) :
  type f = all ∨ value f = None ∨ value f = Some "" → keep f it = true.
Proof.
  intros Hf. apply keep_passes. unfold Spec.passes.
  destruct Hf as [Hall|[Hv|Hv]]; [by left| |]; right; left; by rewrite Hv.
Qed.

Lemma filter_keep_everything (f : Filter) (l : list Item) :
  type f = all ∨ value f = None ∨ value f = Some "" →
  List.filter (keep f) l = l.
Proof.
  intros Hf. induction l as [|it l IH]; simpl; [done|].
  by rewrite (keep_everything f it Hf), IH.
Qed.
End entries_more.

(** X18. The live feed does not tell the filter kinds site, place and
    person apart: with the same value the three give the same entries. *)
Theorem entries_kind_irrelevant `{LiveFeed.Runtime}
    (tweetsData : option (list Api.Tweet)) (newsData : option (list Api.News))
    (v : option string) :
  let by_kind k :=
    LiveFeed.entries tweetsData newsData {| LiveFeed.type := k; LiveFeed.value := v |} in
  by_kind LiveFeed.site = by_kind LiveFeed.place
  ∧ by_kind LiveFeed.place = by_kind LiveFeed.person.
Proof.
  simpl. rewrite !entries_take.
  split; do 2 f_equal; apply List.filter_ext; intros it;
    apply (keep_kind_irrelevant v it).
Qed.

(** X19. With the kind [all], whatever the value, and with any kind and a
    value that is undefined or empty, nothing is filtered out: the entries
    are the first 10 of all merged items in sorted order, as many as there
    are tweets and news together when these are fewer than 10. *)
Theorem entries_unfiltered `{LiveFeed.Runtime}
    (tweetsData : option (list Api.Tweet)) (newsData : option (list Api.News))
    (k : LiveFeed.filter_type) (v : option string) :
  let newest := take 10 (Js.sort LiveFeed.by_time_desc
                           (LiveFeed.items tweetsData newsData)) in
  let entries_of f := LiveFeed.entries tweetsData newsData f in
  entries_of {| LiveFeed.type := LiveFeed.all; LiveFeed.value := v |} = newest
  ∧ entries_of {| LiveFeed.type := k; LiveFeed.value := None |} = newest
  ∧ entries_of {| LiveFeed.type := k; LiveFeed.value := Some "" |} = newest
  ∧ length newest
    = Nat.min 10 (length (default [] tweetsData) + length (default [] newsData)).
Proof.
  simpl. rewrite !entries_take, !filter_keep_everything by (simpl; auto).
  split; [done|]. split; [done|]. split; [done|].
  rewrite length_take, (Permutation_length (sort_perm _ _)).
  unfold LiveFeed.items. by rewrite length_app, !length_map.
Qed.

(** X20. The cap keeps the newest: the parsed timestamp of an item that
    passed the filter and is cut off by the cap is at most that of every
    entry shown. *)
Theorem entries_cap_keeps_newest `{LiveFeed.Runtime}
    (tweetsData : option (list Api.Tweet)) (newsData : option (list Api.News))
    (f : LiveFeed.Filter) (shown cut : LiveFeed.Item) :
  shown ∈ LiveFeed.entries tweetsData newsData f →
  cut ∈ drop 10 (Js.sort LiveFeed.by_time_desc
                   (List.filter (LiveFeed.keep f)
                      (LiveFeed.items tweetsData newsData))) →
  Spec.parsed_time cut ≤ Spec.parsed_time shown.
Proof.
  rewrite entries_take.
  set (sorted := Js.sort _ _). intros Hshown Hcut.
  pose proof (sort_desc Spec.parsed_time LiveFeed.by_time_desc by_time_desc_parsed
                (List.filter (LiveFeed.keep f) (LiveFeed.items tweetsData newsData)))
    as Hsorted.
  fold sorted in Hsorted. rewrite <- (take_drop 10 sorted) in Hsorted.
  exact (StronglySorted_app_1_elem_of _ _ _ _ _ Hsorted Hshown Hcut).
Qed.

(** X21. Ties keep the order of the merged list: among the kept items of
    one parsed timestamp (all those that do not parse are at 0 together)
    the sorted order is tweets before news, each in the order of its
    response. *)
Theorem entries_sort_stable `{LiveFeed.Runtime}
    (tweetsData : option (list Api.Tweet)) (newsData : option (list Api.News))
    (f : LiveFeed.Filter) (time : Z) :
  let at_time := List.filter (fun it => Spec.parsed_time it =? time) in
  at_time (Js.sort LiveFeed.by_time_desc
             (List.filter (LiveFeed.keep f) (LiveFeed.items tweetsData newsData)))
  = at_time (List.filter (LiveFeed.keep f)
               (map LiveFeed.tweet_item (default [] tweetsData)))
    ++ at_time (List.filter (LiveFeed.keep f)
                  (map LiveFeed.news_item (default [] newsData))).
Proof.
  simpl. rewrite (sort_stable Spec.parsed_time LiveFeed.by_time_desc by_time_desc_parsed).
  unfold LiveFeed.items. by rewrite !List.filter_app.
Qed.

Lemma entries_cap_keeps_newest_witness :
  Sample.newest_item
    ∈ @LiveFeed.entries Sample.runtime (Some Sample.tweets30) (Some Sample.feed_news)
        Sample.all_filter
  ∧ Sample.oldest_item
      ∈ drop 10 (Js.sort (@LiveFeed.by_time_desc Sample.runtime)
                   (List.filter (@LiveFeed.keep Sample.runtime Sample.all_filter)
                      (LiveFeed.items (Some Sample.tweets30) (Some Sample.feed_news))))
  ∧ @Spec.parsed_time Sample.runtime Sample.oldest_item
    ≤ @Spec.parsed_time Sample.runtime Sample.newest_item.
Proof.
  assert (Sample.newest_item
            ∈ @LiveFeed.entries Sample.runtime (Some Sample.tweets30)
                (Some Sample.feed_news) Sample.all_filter) as Hshown.
  { apply (list_elem_of_lookup_2 _ 0%nat). vm_compute. reflexivity. }
  assert (Sample.oldest_item
            ∈ drop 10 (Js.sort (@LiveFeed.by_time_desc Sample.runtime)
                         (List.filter (@LiveFeed.keep Sample.runtime Sample.all_filter)
                            (LiveFeed.items (Some Sample.tweets30)
                               (Some Sample.feed_news))))) as Hcut.
  { apply (list_elem_of_lookup_2 _ 21%nat). vm_compute. reflexivity. }
  split; [exact Hshown|]. split; [exact Hcut|].
  exact (@entries_cap_keeps_newest Sample.runtime (Some Sample.tweets30)
           (Some Sample.feed_news) Sample.all_filter
           Sample.newest_item Sample.oldest_item Hshown Hcut).
Defined.
